(** * Quora-API: validation gate, vote ledger and question routes

    A shallow embedding of the Express application of this repository:
    the middlewares of [Middlewares/validateQuestion.mjs] and
    [Middlewares/validateAnswer.mjs], the routes of [routes/questions.mjs]
    and [routes/answers.mjs], and the SQL statements they send to the
    PostgreSQL pool of [utils/db.mjs].

    - A request body is a parsed JSON value; JavaScript's [undefined] is
      [None] at type [option json].
    - A JavaScript string is its sequence of UTF-16 code units, which is
      what [.length] and [===] look at.
    - A table with a primary key [id] is a finite map from ids to rows; a
      vote table is the list of its rows in insertion order.
    - A route is a function from the request, the environment of the call
      (is the pool reachable, the two clock readings) and the database to a
      response and the database afterwards. *)

From Stdlib Require Import ZArith List String Ascii Bool Lia.
From Stdlib Require Import Floats.SpecFloat.
From stdpp Require Import base option list gmap strings.

Local Set Warnings "-register-all".
Local Open Scope Z_scope.

(** ** JavaScript values *)

Definition code_unit := N.
Definition jsstring := list code_unit.

(** A string literal of the source, as code units (the literals of the
    source are all ASCII). *)
Definition lit (s : string) : jsstring :=
  N_of_ascii <$> list_ascii_of_string s.

(** What [JSON.parse] and the query-string parser produce. A number is an
    IEEE 754 double. *)
Inductive json : Type :=
| JNull
| JBool (b : bool)
| JNum (x : spec_float)
| JStr (s : jsstring)
| JArr (elems : list json)
| JObj (props : list (jsstring * json)).

(** Own property [k] of an object given by its bindings. *)
Fixpoint assoc (k : jsstring) (props : list (jsstring * json)) : option json :=
  match props with
  | [] => None
  | (k', v) :: rest => if bool_decide (k' = k) then Some v else assoc k rest
  end.

(** [o.k] for the property names the source reads ([vote], [title],
    [description], [category], [content]): none of them is defined on
    [Object.prototype] or [Array.prototype], so anything but an object with
    that own property gives [undefined]. *)
Definition prop (o : json) (k : string) : option json :=
  match o with
  | JObj props => assoc (lit k) props
  | _ => None
  end.

(** ToBoolean: [!v] is [negb (truthy v)]. *)
Definition truthy (v : option json) : bool :=
  match v with
  | None => false
  | Some JNull => false
  | Some (JBool b) => b
  | Some (JNum (S754_zero _)) => false
  | Some (JNum S754_nan) => false
  | Some (JNum _) => true
  | Some (JStr s) => negb (bool_decide (s = []))
  | Some (JArr _) => true
  | Some (JObj _) => true
  end.

(** [v === "s"] for a string literal: no conversion, only a string with the
    same code units is equal. *)
Definition strict_eq (v : option json) (s : string) : bool :=
  match v with
  | Some (JStr t) => bool_decide (t = lit s)
  | _ => false
  end.

(** ** Requests and responses *)

Record request := {
  params_id : jsstring;                (* req.params.id *)
  body : json;                         (* req.body *)
  query : list (jsstring * json)       (* req.query, in enumeration order *)
}.

(** Rows of the three kinds of table. The [id] of a question or an answer
    is the key under which its row is stored. *)
Record question := {
  q_title : option jsstring;
  q_description : option jsstring;
  q_category : option jsstring;
  q_created_at : Z;
  q_updated_at : Z
}.

Record answer := {
  a_question_id : Z;
  a_content : option jsstring;
  a_created_at : Z;
  a_updated_at : Z
}.

(** A row of [question_votes] or [answer_votes]; [v_target] is the column
    [question_id], respectively [answer_id]. The generated [id] of a vote
    is never read by the application: a vote is identified by its position
    in the table. *)
Record vote_row := {
  v_target : Z;
  v_vote : option Z;
  v_created_at : Z;
  v_updated_at : Z
}.

(** The row the vote statement selects: the item's columns with the two
    counts. (node-postgres hands a [count] over as the decimal string of a
    bigint; the model keeps the number.) *)
Record tally (A : Type) := {
  t_id : Z;
  t_item : A;
  upvote : nat;
  downvote : nat
}.
Arguments t_id {A} _.
Arguments t_item {A} _.
Arguments upvote {A} _.
Arguments downvote {A} _.

(** The JSON object sent with a status: always a [message], and for a
    success one more member. *)
Inductive payload : Type :=
| no_payload
| data_questions (rows : list (Z * question))
| data_question (row : Z * question)
| data_answers (rows : list (Z * answer))
| newQuestion (row : Z * question)
| new_answer (row : Z * answer)
| questionVote (row : tally question)
| answerVote (row : tally answer)
| updatedQuestion (row : Z * question).

Record response := {
  status : Z;
  message : string;
  content : payload
}.

Definition json_message (code : Z) (msg : string) : response :=
  {| status := code; message := msg; content := no_payload |}.

(** ** Middlewares *)

(** A middleware either answers the request or calls [next()]. *)
Inductive outcome : Type :=
| Respond (r : response)
| Next.

Module validateQuestion_mjs.

Definition validateQuestion (req : request) : outcome :=
  if negb (truthy (prop (body req) "title")) then
    Respond (json_message 400 "Missing or invalid request data.")
  else if negb (truthy (prop (body req) "description")) then
    Respond (json_message 400 "Missing or invalid request data.")
  else if negb (truthy (prop (body req) "category")) then
    Respond (json_message 400 "Missing or invalid request data.")
  else Next.

Definition validateQuestionUpVote (req : request) : outcome :=
  if negb (truthy (prop (body req) "vote")) then
    Respond (json_message 400 "Missing or invalid request data.")
  else if negb (strict_eq (prop (body req) "vote") "1") then
    Respond (json_message 400 "Please enter only 1.")
  else Next.

Definition validateQuestionDownVote (req : request) : outcome :=
  if negb (truthy (prop (body req) "vote")) then
    Respond (json_message 400 "Missing or invalid request data.")
  else if negb (strict_eq (prop (body req) "vote") "-1") then
    Respond (json_message 400 "Please enter only -1.")
  else Next.

(** [for (let key in req.query)]: the first key that is neither [title]
    nor [category] answers 400. *)
Fixpoint validateQuery_loop (keys : list jsstring) : outcome :=
  match keys with
  | [] => Next
  | key :: rest =>
      if negb (bool_decide (key = lit "title"))
         && negb (bool_decide (key = lit "category"))
      then Respond (json_message 400 "Please enter a correct query.")
      else validateQuery_loop rest
  end.

Definition validateQuery (req : request) : outcome :=
  validateQuery_loop (fst <$> query req).

End validateQuestion_mjs.

Module validateAnswer_mjs.

Section Comparison.

(** ECMAScript's [v > 300] for a JSON value [v] (ToNumber, then the
    comparison of doubles). It is only reached for a [content] that is an
    object with a [length] property of its own. *)
Variable gt300 : json -> bool.

(** [c.length > 300]. A string has its number of code units, an array its
    number of elements; a number or a boolean has no [length], and
    [undefined > 300] is false. *)
Definition length_over_300 (c : option json) : bool :=
  match c with
  | Some (JStr s) => bool_decide (300 < Z.of_nat (length s))
  | Some (JArr elems) => bool_decide (300 < Z.of_nat (length elems))
  | Some (JObj props) =>
      match assoc (lit "length") props with
      | Some v => gt300 v
      | None => false
      end
  | _ => false
  end.

Definition validateAnswer (req : request) : outcome :=
  if negb (truthy (prop (body req) "content")) then
    Respond (json_message 400 "Missing or invalid request data.")
  else if length_over_300 (prop (body req) "content") then
    Respond (json_message 400 "Textlength is over 300.")
  else Next.

End Comparison.

Definition validateAnswerDownVote (req : request) : outcome :=
  if negb (truthy (prop (body req) "vote")) then
    Respond (json_message 400 "Missing or invalid request data.")
  else if negb (strict_eq (prop (body req) "vote") "-1") then
    Respond (json_message 400 "Please enter only -1.")
  else Next.

Definition validateAnswerUpVote (req : request) : outcome :=
  if negb (truthy (prop (body req) "vote")) then
    Respond (json_message 400 "Missing or invalid request data.")
  else if negb (strict_eq (prop (body req) "vote") "1") then
    Respond (json_message 400 "Please enter only 1.")
  else Next.

End validateAnswer_mjs.

(** ** The storage engine *)

(** Modelled from the spec: the schema of the tables, which the repository
    does not contain. [questions] and [answers] are keyed by a generated
    [id]; a vote table has a target id, a direction and two timestamps, no
    counter column, and no foreign key to the table of its target
    (section 4.2: the vote insert has no foreign-key dependency on the item
    existing). The [id] of a new question or answer is the next value of
    the table's sequence. *)
Record database := {
  questions : gmap Z question;
  questions_id_seq : Z;
  answers : gmap Z answer;
  answers_id_seq : Z;
  question_votes : list vote_row;
  answer_votes : list vote_row
}.

(** What [connectionPool.query] resolves to. *)
Record result (R : Type) := {
  rowCount : nat;
  rows : list R
}.
Arguments rowCount {R} _.
Arguments rows {R} _.

Definition returned {R : Type} (l : list R) : result R :=
  {| rowCount := length l; rows := l |}.

(** The environment of one call: whether the round trip to the pool
    succeeds, and the values of the first and second [new Date()]. *)
Record env := {
  up : bool;
  date1 : Z;
  date2 : Z
}.

(** A statement either is rejected ([None], the promise rejects) or gives a
    result; either way it leaves a database. *)
Definition statement (R : Type) : Type :=
  database -> option (result R) * database.

Definition pool_query {R : Type} (e : env) (stmt : statement R) : statement R :=
  fun db => if up e then stmt db else (None, db).

(** [title = $1 or $1 is null or $1 = ''] is TRUE (SQL's three-valued
    logic: a comparison with a NULL column is unknown). *)
Definition matches_or_blank (col p : option jsstring) : bool :=
  match p with
  | None => true
  | Some s =>
      bool_decide (s = [])
      || match col with
         | Some c => bool_decide (c = s)
         | None => false
         end
  end.

(** [count(case when votes.vote = d then votes end)] over joined rows. *)
Definition count_vote {A B : Type} (d : Z) (joined : list (A * vote_row * B)) : nat :=
  length (filter (fun r => v_vote (r.1.2) = Some d) joined).

(** The [select] of the vote statement over the rows visible to it:
<<
    from items inner join votes on items.id = votes.target
               inner join newField on newField.target = votes.target
    where items.id = $1 group by items.id
>>
    [id] is the primary key of [items], so there is at most one group, and
    there is none when the join is empty. *)
Definition vote_join {A : Type} (items : gmap Z A) (votes newField : list vote_row)
    (id : Z) : list ((Z * A) * vote_row * vote_row) :=
  match items !! id with
  | None => []
  | Some it =>
      v ← filter (fun v => v_target v = id) votes;
      nf ← filter (fun nf => v_target nf = v_target v) newField;
      [((id, it), v, nf)]
  end.

Definition vote_select {A : Type} (items : gmap Z A) (votes newField : list vote_row)
    (id : Z) : list (tally A) :=
  let joined := vote_join items votes newField id in
  match joined with
  | [] => []
  | (item, _, _) :: _ =>
      [ {| t_id := item.1; t_item := item.2;
           upvote := count_vote 1 joined;
           downvote := count_vote (-1) joined |} ]
  end.

(** The operation as section 4.2 of the specification words it: the counts
    are taken over every vote of the target, the one just inserted
    included. Kept beside [vote_select] for comparison. *)
Definition spec_castVote {A : Type} (items : gmap Z A) (votes : list vote_row)
    (new : vote_row) : option (tally A) :=
  match items !! v_target new with
  | None => None
  | Some it =>
      let all := filter (fun v => v_target v = v_target new) (votes ++ [new]) in
      Some {| t_id := v_target new; t_item := it;
              upvote := length (filter (fun v => v_vote v = Some 1) all);
              downvote := length (filter (fun v => v_vote v = Some (-1)) all) |}
  end.

Definition set_questions (db : database) (qs : gmap Z question) : database :=
  {| questions := qs; questions_id_seq := questions_id_seq db;
     answers := answers db; answers_id_seq := answers_id_seq db;
     question_votes := question_votes db; answer_votes := answer_votes db |}.

Definition set_questions_id_seq (db : database) (n : Z) : database :=
  {| questions := questions db; questions_id_seq := n;
     answers := answers db; answers_id_seq := answers_id_seq db;
     question_votes := question_votes db; answer_votes := answer_votes db |}.

Definition set_answers (db : database) (ans : gmap Z answer) : database :=
  {| questions := questions db; questions_id_seq := questions_id_seq db;
     answers := ans; answers_id_seq := answers_id_seq db;
     question_votes := question_votes db; answer_votes := answer_votes db |}.

Definition set_answers_id_seq (db : database) (n : Z) : database :=
  {| questions := questions db; questions_id_seq := questions_id_seq db;
     answers := answers db; answers_id_seq := n;
     question_votes := question_votes db; answer_votes := answer_votes db |}.

Definition set_question_votes (db : database) (vs : list vote_row) : database :=
  {| questions := questions db; questions_id_seq := questions_id_seq db;
     answers := answers db; answers_id_seq := answers_id_seq db;
     question_votes := vs; answer_votes := answer_votes db |}.

Definition set_answer_votes (db : database) (vs : list vote_row) : database :=
  {| questions := questions db; questions_id_seq := questions_id_seq db;
     answers := answers db; answers_id_seq := answers_id_seq db;
     question_votes := question_votes db; answer_votes := vs |}.

(** ** An input conversion and a sample store *)

(** Decimal numerals in the range of a 32-bit integer column: one possible
    input conversion, used to run the routes on concrete requests. *)
Definition digit (c : code_unit) : option Z :=
  if (48 <=? c)%N && (c <=? 57)%N then Some (Z.of_N c - 48) else None.

Fixpoint digits (acc : Z) (s : jsstring) : option Z :=
  match s with
  | [] => Some acc
  | c :: rest =>
      match digit c with
      | Some d => digits (10 * acc + d) rest
      | None => None
      end
  end.

Definition in_int4 (n : Z) : option Z :=
  if (-2147483648 <=? n) && (n <=? 2147483647) then Some n else None.

Definition int4_decimal (s : jsstring) : option Z :=
  match s with
  | [] => None
  | 45%N :: [] => None
  | 45%N :: rest => n ← digits 0 rest; in_int4 (- n)
  | _ => n ← digits 0 s; in_int4 n
  end.

(** A store with question 5 and no vote, and the requests of the scenario
    of section 8 of the specification. *)
Definition question5 : question :=
  {| q_title := Some (lit "How to use Swagger with Node.js?");
     q_description := Some (lit "I am trying to integrate Swagger");
     q_category := Some (lit "Technology");
     q_created_at := 1000; q_updated_at := 1000 |}.

Definition store5 : database :=
  {| questions := {[ 5 := question5 ]}; questions_id_seq := 6;
     answers := ∅; answers_id_seq := 1;
     question_votes := []; answer_votes := [] |}.

Definition vote_request (id : string) (vote : json) : request :=
  {| params_id := lit id; body := JObj [(lit "vote", vote)]; query := [] |}.

Definition at_time (t : Z) : env :=
  {| up := true; date1 := t; date2 := t |}.

(** A stand-in for the text node-postgres sends for a value that is not a
    string; no request below has such a parameter. *)
Definition no_text (_ : json) : jsstring := [].

(** More sample data: a request that creates or rewrites a question, the
    store after one upvote of question 5, the store with one answer to
    question 5, and a call made while the pool is unreachable. *)
Definition question_request (id : string) (title description category : json) : request :=
  {| params_id := lit id;
     body := JObj [(lit "title", title); (lit "description", description);
                   (lit "category", category)];
     query := [] |}.

Definition sample_question_request (id : string) : request :=
  question_request id (JStr (lit "Title")) (JStr (lit "Text")) (JStr (lit "Science")).

Definition store5_voted : database :=
  set_question_votes store5
    [ {| v_target := 5; v_vote := Some 1; v_created_at := 2000; v_updated_at := 2000 |} ].

Definition answer1 : answer :=
  {| a_question_id := 5; a_content := Some (lit "Read the manual");
     a_created_at := 1500; a_updated_at := 1500 |}.

Definition store5_answered : database :=
  set_answers store5 {[ 1 := answer1 ]}.

Definition offline : env :=
  {| up := false; date1 := 2000; date2 := 2000 |}.

(** ** Statements and routes *)

Section Application.

Set Default Proof Using "Type".

(** ECMAScript's [v > 300] on a JSON value, see [validateAnswer]. *)
Variable gt300 : json -> bool.

(** node-postgres' text form of a parameter that is not a string: a
    number, a boolean, an array, an object. *)
Variable prepareValue : json -> jsstring.

(** PostgreSQL's input conversion for an integer column: [None] when the
    text is no integer, and the statement is rejected. *)
Variable int_in : jsstring -> option Z.

(** Whether [answers.question_id] references [questions(id)] with
    [on delete cascade]; the repository does not tell. *)
Variable answers_fk : bool.

(** A parameter bound to a text column: [undefined] and [null] are sent as
    NULL, a string as it is. *)
Definition text_param (v : option json) : option jsstring :=
  match v with
  | None => None
  | Some JNull => None
  | Some (JStr s) => Some s
  | Some j => Some (prepareValue j)
  end.

(** A parameter bound to an integer column: [None] when the statement is
    rejected, [Some None] for NULL. *)
Definition int_param (v : option json) : option (option Z) :=
  match text_param v with
  | None => Some None
  | Some s =>
      match int_in s with
      | Some n => Some (Some n)
      | None => None
      end
  end.

(** [select * from questions where (title = $1 or $1 is null or $1 = '')
    and (category = $2 or $2 is null or $2 = '')] *)
Definition listed (title category : option json) (db : database) : list (Z * question) :=
  filter (fun r => matches_or_blank (q_title r.2) (text_param title)
                   && matches_or_blank (q_category r.2) (text_param category))
         (map_to_list (questions db)).

Definition select_questions (title category : option json) : statement (Z * question) :=
  fun db => (Some (returned (listed title category db)), db).

(** [select * from questions where id = $1] *)
Definition select_question (id : jsstring) : statement (Z * question) :=
  fun db =>
    match int_in id with
    | None => (None, db)
    | Some k =>
        (Some (returned
           match questions db !! k with
           | Some q => [(k, q)]
           | None => []
           end),
         db)
    end.

(** [select * from answers where question_id = $1] *)
Definition select_answers (id : jsstring) : statement (Z * answer) :=
  fun db =>
    match int_in id with
    | None => (None, db)
    | Some k =>
        (Some (returned
           (filter (fun r => a_question_id r.2 = k) (map_to_list (answers db)))),
         db)
    end.

(** [insert into questions (title,description,category,created_at,updated_at)
    values ($1,$2,$3,$4,$5) returning *]. The sequence advances even when
    the generated key is taken and the insert is rejected. *)
Definition insert_question (title description category : option json)
    (created updated : Z) : statement (Z * question) :=
  fun db =>
    let id := questions_id_seq db in
    let q := {| q_title := text_param title;
                q_description := text_param description;
                q_category := text_param category;
                q_created_at := created; q_updated_at := updated |} in
    let db1 := set_questions_id_seq db (id + 1) in
    match questions db !! id with
    | Some _ => (None, db1)
    | None => (Some (returned [(id, q)]), set_questions db1 (<[id := q]> (questions db)))
    end.

(** [insert into answers (question_id,content,created_at,updated_at)
    values ($1,$2,$3,$4) returning *] *)
Definition insert_answer (id : jsstring) (content : option json)
    (created updated : Z) : statement (Z * answer) :=
  fun db =>
    match int_in id with
    | None => (None, db)
    | Some k =>
        let aid := answers_id_seq db in
        let a := {| a_question_id := k; a_content := text_param content;
                    a_created_at := created; a_updated_at := updated |} in
        let db1 := set_answers_id_seq db (aid + 1) in
        if answers_fk && negb (bool_decide (is_Some (questions db !! k))) then (None, db1)
        else
          match answers db !! aid with
          | Some _ => (None, db1)
          | None => (Some (returned [(aid, a)]), set_answers db1 (<[aid := a]> (answers db)))
          end
    end.

(** The vote statement of the two question routes:
<<
    with newField as [insert into question_votes
        (question_id,vote,created_at,updated_at) values ($1,$2,$3,$4) returning all]
    select questions.id, ..., count(case when question_votes.vote = 1 ...) as upvote,
           count(case when question_votes.vote = -1 ...) as downvote
    from questions inner join question_votes on ... inner join newField on ...
    where questions.id = $1 group by questions.id
>>
    PostgreSQL runs a data-modifying [with] and the main query on the same
    snapshot (documentation of [WITH], "Data-Modifying Statements in WITH":
    the sub-statements "cannot see one another's effects on the target
    tables", and "RETURNING data is the only way to communicate changes"
    to the main query). So [question_votes] in the [from] clause is the
    table before the insert, [newField] holds the inserted row, and the
    insert is carried out whatever the [select] returns. *)
Definition insert_question_vote (id : jsstring) (vote : option json)
    (created updated : Z) : statement (tally question) :=
  fun db =>
    match int_in id, int_param vote with
    | Some k, Some v =>
        let newField := [ {| v_target := k; v_vote := v;
                             v_created_at := created; v_updated_at := updated |} ] in
        (Some (returned (vote_select (questions db) (question_votes db) newField k)),
         set_question_votes db (question_votes db ++ newField))
    | _, _ => (None, db)
    end.

(** The same statement over [answers] and [answer_votes]. *)
Definition insert_answer_vote (id : jsstring) (vote : option json)
    (created updated : Z) : statement (tally answer) :=
  fun db =>
    match int_in id, int_param vote with
    | Some k, Some v =>
        let newField := [ {| v_target := k; v_vote := v;
                             v_created_at := created; v_updated_at := updated |} ] in
        (Some (returned (vote_select (answers db) (answer_votes db) newField k)),
         set_answer_votes db (answer_votes db ++ newField))
    | _, _ => (None, db)
    end.

(** [update questions set title = $2, description = $3, category = $4,
    updated_at = $5 where id = $1 returning *] *)
Definition update_question (id : jsstring) (title description category : option json)
    (updated : Z) : statement (Z * question) :=
  fun db =>
    match int_in id with
    | None => (None, db)
    | Some k =>
        match questions db !! k with
        | None => (Some (returned []), db)
        | Some q =>
            let q' := {| q_title := text_param title;
                         q_description := text_param description;
                         q_category := text_param category;
                         q_created_at := q_created_at q; q_updated_at := updated |} in
            (Some (returned [(k, q')]), set_questions db (<[k := q']> (questions db)))
        end
    end.

(** [delete from questions where id = $1]: no row is returned, [rowCount]
    is the number of deleted questions. *)
Definition delete_question_stmt (id : jsstring) : statement (Z * question) :=
  fun db =>
    match int_in id with
    | None => (None, db)
    | Some k =>
        match questions db !! k with
        | None => (Some {| rowCount := 0; rows := [] |}, db)
        | Some _ =>
            let db1 := set_questions db (delete k (questions db)) in
            (Some {| rowCount := 1; rows := [] |},
             if answers_fk
             then set_answers db1 (filter (fun r => a_question_id r.2 ≠ k) (answers db))
             else db1)
        end
    end.

(** A route handler: the response and the database it leaves. *)
Definition handler : Type := request -> env -> database -> response * database.

(** [router.METHOD(path, [mw], callback)]: the callback runs only when the
    middleware calls [next()]. *)
Definition route (mw : request -> outcome) (callback : handler) : handler :=
  fun req e db =>
    match mw req with
    | Respond r => (r, db)
    | Next => callback req e db
    end.

(** [key: results.rows[0]]: a member whose value is [undefined] is left out
    of the JSON sent. *)
Definition first_row {R : Type} (member : R -> payload) (results : result R) : payload :=
  match rows results !! 0%nat with
  | Some r => member r
  | None => no_payload
  end.

Definition ok (code : Z) (msg : string) (p : payload) : response :=
  {| status := code; message := msg; content := p |}.

(** [questionRouter.get("/", [validateQuery], ...)] *)
Definition get_questions : handler :=
  route validateQuestion_mjs.validateQuery (fun req e db =>
    let title := assoc (lit "title") (query req) in
    let category := assoc (lit "category") (query req) in
    match pool_query e (select_questions title category) db with
    | (None, db') =>
        (json_message 500 "Server could not read question because database connection.", db')
    | (Some results, db') =>
        if bool_decide (rowCount results = 0%nat) then
          (json_message 404 "Question not found.", db')
        else
          (ok 200 "Successfully retrieved the list of questions."
              (data_questions (rows results)), db')
    end).

(** [questionRouter.get("/:id", ...)] *)
Definition get_question : handler :=
  fun req e db =>
    match pool_query e (select_question (params_id req)) db with
    | (None, db') =>
        (json_message 500 "Server could not read question because database connection.", db')
    | (Some results, db') =>
        if bool_decide (rowCount results = 0%nat) then
          (json_message 404 "Question not found.", db')
        else
          (ok 200 "Successfully retrieved the list of questions."
              (first_row data_question results), db')
    end.

(** [questionRouter.get("/:id/answers", ...)] *)
Definition get_question_answers : handler :=
  fun req e db =>
    match pool_query e (select_answers (params_id req)) db with
    | (None, db') =>
        (json_message 500 "Server could not read answer because database connection.", db')
    | (Some results, db') =>
        (ok 200 "Successfully retrieved the answers." (data_answers (rows results)), db')
    end.

(** [questionRouter.post("/", [validateQuestion], ...)] *)
Definition post_question : handler :=
  route validateQuestion_mjs.validateQuestion (fun req e db =>
    match pool_query e
            (insert_question (prop (body req) "title") (prop (body req) "description")
                             (prop (body req) "category") (date1 e) (date2 e)) db with
    | (None, db') =>
        (json_message 500 "Server could not create question because database connection.", db')
    | (Some results, db') =>
        (ok 201 "Question created successfully." (first_row newQuestion results), db')
    end).

(** [questionRouter.post("/:id/answers", [validateAnswer], ...)] *)
Definition post_question_answer : handler :=
  route (validateAnswer_mjs.validateAnswer gt300) (fun req e db =>
    match pool_query e
            (insert_answer (params_id req) (prop (body req) "content")
                           (date1 e) (date2 e)) db with
    | (None, db') =>
        (json_message 500 "Server could not create answer because database connection.", db')
    | (Some results, db') =>
        (ok 201 "Answer created successfully." (first_row new_answer results), db')
    end).

(** [questionRouter.post("/:id/upvote", [validateQuestionUpVote], ...)] *)
Definition post_question_upvote : handler :=
  route validateQuestion_mjs.validateQuestionUpVote (fun req e db =>
    match pool_query e
            (insert_question_vote (params_id req) (prop (body req) "vote")
                                  (date1 e) (date2 e)) db with
    | (None, db') =>
        (json_message 500 "Server could not vote question because database connection.", db')
    | (Some results, db') =>
        if bool_decide (rowCount results = 0%nat) then
          (json_message 404 "Question not found.", db')
        else
          (ok 200 "Successfully upvoted the question." (first_row questionVote results), db')
    end).

(** [questionRouter.post("/:id/downvote", [validateQuestionDownVote], ...)] *)
Definition post_question_downvote : handler :=
  route validateQuestion_mjs.validateQuestionDownVote (fun req e db =>
    match pool_query e
            (insert_question_vote (params_id req) (prop (body req) "vote")
                                  (date1 e) (date2 e)) db with
    | (None, db') =>
        (json_message 500 "Server could not vote question because database connection.", db')
    | (Some results, db') =>
        if bool_decide (rowCount results = 0%nat) then
          (json_message 404 "Question not found.", db')
        else
          (ok 200 "Successfully downvoted the question." (first_row questionVote results), db')
    end).

(** [questionRouter.put("/:id", [validateQuestion], ...)]; the only
    [new Date()] is the one of [updated_at]. *)
Definition put_question : handler :=
  route validateQuestion_mjs.validateQuestion (fun req e db =>
    match pool_query e
            (update_question (params_id req) (prop (body req) "title")
                             (prop (body req) "description") (prop (body req) "category")
                             (date1 e)) db with
    | (None, db') =>
        (json_message 500 "Server could not update question because database connection.", db')
    | (Some results, db') =>
        if bool_decide (rowCount results = 0%nat) then
          (json_message 404 "Question not found.", db')
        else
          (ok 200 "Successfully updated the question." (first_row updatedQuestion results), db')
    end).

(** [questionRouter.delete("/:id", ...)] *)
Definition delete_question : handler :=
  fun req e db =>
    match pool_query e (delete_question_stmt (params_id req)) db with
    | (None, db') =>
        (json_message 500 "Server could not delete question because database connection.", db')
    | (Some results, db') =>
        if bool_decide (rowCount results = 0%nat) then
          (json_message 404 "Question not found.", db')
        else
          (json_message 200 "Successfully deleted the question and answer.", db')
    end.

(** [answerRouter.post("/:id/downvote", [validateAnswerDownVote], ...)] *)
Definition post_answer_downvote : handler :=
  route validateAnswer_mjs.validateAnswerDownVote (fun req e db =>
    match pool_query e
            (insert_answer_vote (params_id req) (prop (body req) "vote")
                                (date1 e) (date2 e)) db with
    | (None, db') =>
        (json_message 500 "Server could not vote answer because database connection.", db')
    | (Some results, db') =>
        if bool_decide (rowCount results = 0%nat) then
          (json_message 404 "Answer not found.", db')
        else
          (ok 200 "Successfully downvoted the answer." (first_row answerVote results), db')
    end).

(** [answerRouter.post("/:id/upvote", [validateAnswerUpVote], ...)] *)
Definition post_answer_upvote : handler :=
  route validateAnswer_mjs.validateAnswerUpVote (fun req e db =>
    match pool_query e
            (insert_answer_vote (params_id req) (prop (body req) "vote")
                                (date1 e) (date2 e)) db with
    | (None, db') =>
        (json_message 500 "Server could not vote answer because database connection.", db')
    | (Some results, db') =>
        if bool_decide (rowCount results = 0%nat) then
          (json_message 404 "Answer not found.", db')
        else
          (ok 200 "Successfully upvoted the answer." (first_row answerVote results), db')
    end).

(** ** The application as a transition system *)

Inductive target_kind : Type := Question | Answer.
Inductive direction : Type := Up | Down.

(** The routes mounted by [app.mjs] under [/questions] and [/answers]. *)
Inductive endpoint : Type :=
| GET_questions
| GET_question
| GET_question_answers
| POST_question
| POST_question_answer
| POST_vote (k : target_kind) (d : direction)
| PUT_question
| DELETE_question.

Definition cast (k : target_kind) (d : direction) : handler :=
  match k, d with
  | Question, Up => post_question_upvote
  | Question, Down => post_question_downvote
  | Answer, Up => post_answer_upvote
  | Answer, Down => post_answer_downvote
  end.

Definition serve (ep : endpoint) : handler :=
  match ep with
  | GET_questions => get_questions
  | GET_question => get_question
  | GET_question_answers => get_question_answers
  | POST_question => post_question
  | POST_question_answer => post_question_answer
  | POST_vote k d => cast k d
  | PUT_question => put_question
  | DELETE_question => delete_question
  end.

(** A run: the requests are served one after the other. *)
Fixpoint serve_all (calls : list (endpoint * request * env)) (db : database)
    : list response * database :=
  match calls with
  | [] => ([], db)
  | (ep, req, e) :: rest =>
      let '(r, db1) := serve ep req e db in
      let '(rs, db2) := serve_all rest db1 in
      (r :: rs, db2)
  end.

(** A run made of casts only. *)
Definition vote_calls (casts : list (target_kind * direction * request * env))
    : list (endpoint * request * env) :=
  (fun c => (POST_vote c.1.1.1 c.1.1.2, c.1.2, c.2)) <$> casts.

(** The literal a direction is written as, and the integer stored. *)
Definition literal (d : direction) : string :=
  match d with Up => "1" | Down => "-1" end.

Definition magnitude (d : direction) : Z :=
  match d with Up => 1 | Down => -1 end.

(** The ledger and the item an endpoint votes on. *)
Definition ledger (k : target_kind) (db : database) : list vote_row :=
  match k with
  | Question => question_votes db
  | Answer => answer_votes db
  end.

Definition item_exists (k : target_kind) (db : database) (id : Z) : bool :=
  match k with
  | Question => bool_decide (is_Some (questions db !! id))
  | Answer => bool_decide (is_Some (answers db !! id))
  end.

(** The two counts of a vote response, when it carries them. *)
Definition counts (r : response) : option (nat * nat) :=
  match content r with
  | questionVote t => Some (upvote t, downvote t)
  | answerVote t => Some (upvote t, downvote t)
  | _ => None
  end.

(** The votes of one target in a ledger, by direction. *)
Definition votes_of (d : Z) (id : Z) (l : list vote_row) : nat :=
  length (filter (fun v => v_target v = id ∧ v_vote v = Some d) l).

(** Every stored direction is [1] or [-1]. *)
Definition directions_ok (db : database) : Prop :=
  ∀ v, v ∈ question_votes db ++ answer_votes db → v_vote v = Some 1 ∨ v_vote v = Some (-1).

(** The middleware in front of a vote route. *)
Definition vote_gate (k : target_kind) (d : direction) : request -> outcome :=
  match k, d with
  | Question, Up => validateQuestion_mjs.validateQuestionUpVote
  | Question, Down => validateQuestion_mjs.validateQuestionDownVote
  | Answer, Up => validateAnswer_mjs.validateAnswerUpVote
  | Answer, Down => validateAnswer_mjs.validateAnswerDownVote
  end.

Definition set_ledger (k : target_kind) (db : database) (vs : list vote_row) : database :=
  match k with
  | Question => set_question_votes db vs
  | Answer => set_answer_votes db vs
  end.

Definition not_found (k : target_kind) : response :=
  match k with
  | Question => json_message 404 "Question not found."
  | Answer => json_message 404 "Answer not found."
  end.

Definition storage_error (k : target_kind) : response :=
  match k with
  | Question =>
      json_message 500 "Server could not vote question because database connection."
  | Answer =>
      json_message 500 "Server could not vote answer because database connection."
  end.

(** The row a cast inserts. *)
Definition cast_row (d : direction) (n : Z) (e : env) : vote_row :=
  {| v_target := n; v_vote := Some (magnitude d);
     v_created_at := date1 e; v_updated_at := date2 e |}.

(** The values [!v] lets through to the 400 of a missing field. *)
Inductive falsy : option json -> Prop :=
| falsy_undefined : falsy None
| falsy_null : falsy (Some JNull)
| falsy_false : falsy (Some (JBool false))
| falsy_zero s : falsy (Some (JNum (S754_zero s)))
| falsy_nan : falsy (Some (JNum S754_nan))
| falsy_empty : falsy (Some (JStr [])).

Definition missing_field : response :=
  json_message 400 "Missing or invalid request data.".

Definition invalid_direction (d : direction) : response :=
  match d with
  | Up => json_message 400 "Please enter only 1."
  | Down => json_message 400 "Please enter only -1."
  end.

(** ** Predicates on stores and routes *)

(** No question has a NULL [title], [description] or [category]. *)
Definition fields_present (db : database) : Prop :=
  ∀ id q, questions db !! id = Some q →
    is_Some (q_title q) ∧ is_Some (q_description q) ∧ is_Some (q_category q).

(** The routes registered with [router.get]. *)
Definition is_get (ep : endpoint) : bool :=
  match ep with
  | GET_questions | GET_question | GET_question_answers => true
  | _ => false
  end.

(** A filter parameter of the list route lets a column value through:
    the parameter is absent, empty, or equal to the value. *)
Definition lets_through (p : option json) (col : option jsstring) : Prop :=
  text_param p = None ∨ text_param p = Some [] ∨
  (∃ s, text_param p = Some s ∧ col = Some s).

(** The row [insert_question] and [update_question] build from a body. *)
Definition question_of (req : request) (created updated : Z) : question :=
  {| q_title := text_param (prop (body req) "title");
     q_description := text_param (prop (body req) "description");
     q_category := text_param (prop (body req) "category");
     q_created_at := created; q_updated_at := updated |}.

(** The routes whose path has an [:id]. *)
Definition has_id (ep : endpoint) : bool :=
  match ep with
  | GET_questions | POST_question => false
  | _ => true
  end.

(** ** Values and middlewares *)

Lemma truthy_falsy (v : option json) : truthy v = false ↔ falsy v.
Proof.
  split.
  - destruct v as [[| [] | [] | [] | |]|]; simpl; try discriminate; intros _; constructor.
  - destruct 1; reflexivity.
Qed.

Lemma strict_eq_true (v : option json) (s : string) :
  strict_eq v s = true ↔ v = Some (JStr (lit s)).
Proof.
  unfold strict_eq. split.
  - destruct v as [[]|]; try discriminate. intros H%bool_decide_eq_true. by subst.
  - intros ->. by apply bool_decide_eq_true.
Qed.

Lemma literal_truthy (d : direction) : truthy (Some (JStr (lit (literal d)))) = true.
Proof. by destruct d. Qed.

Lemma vote_gate_eq (k : target_kind) (d : direction) (req : request) :
  vote_gate k d req =
    if negb (truthy (prop (body req) "vote")) then Respond missing_field
    else if negb (strict_eq (prop (body req) "vote") (literal d))
         then Respond (invalid_direction d)
         else Next.
Proof. by destruct k, d. Qed.

Lemma vote_gate_next (k : target_kind) (d : direction) (req : request) :
  vote_gate k d req = Next ↔ prop (body req) "vote" = Some (JStr (lit (literal d))).
Proof.
  rewrite vote_gate_eq, <- strict_eq_true. split.
  - destruct (truthy _); simpl; [|discriminate].
    by destruct (strict_eq _ _).
  - intros H. rewrite H. apply strict_eq_true in H. rewrite H.
    by rewrite literal_truthy.
Qed.

Lemma vote_gate_status (k : target_kind) (d : direction) (req : request) (r : response) :
  vote_gate k d req = Respond r → status r = 400.
Proof.
  rewrite vote_gate_eq.
  destruct (truthy _); simpl; [|by intros [= <-]].
  destruct (strict_eq _ _); simpl; [discriminate|].
  intros [= <-]. by destruct d.
Qed.

(** ** The vote statement *)

Lemma vote_join_one {A : Type} (items : gmap Z A) (votes : list vote_row)
    (nf : vote_row) (id : Z) :
  v_target nf = id →
  vote_join items votes [nf] id =
    match items !! id with
    | None => []
    | Some it => (fun v => ((id, it), v, nf)) <$> filter (fun v => v_target v = id) votes
    end.
Proof.
  intros Hnf. unfold vote_join. destruct (items !! id) as [it|]; [|done].
  induction votes as [|v votes IH]; [done|].
  rewrite filter_cons. case_decide as Hv; [|exact IH].
  rewrite bind_cons, fmap_cons, IH. f_equal.
  rewrite filter_cons, decide_True by congruence. done.
Qed.

Lemma count_vote_joined {A : Type} (d id : Z) (it : A) (nf : vote_row) (votes : list vote_row) :
  count_vote d ((fun v => ((id, it), v, nf)) <$> filter (fun v => v_target v = id) votes)
  = votes_of d id votes.
Proof.
  unfold count_vote, votes_of.
  induction votes as [|v votes IH]; [done|].
  rewrite !filter_cons. destruct (decide (v_target v = id)) as [Ht|Ht].
  - rewrite fmap_cons, filter_cons. simpl.
    destruct (decide (v_vote v = Some d)) as [Hd|Hd].
    + rewrite decide_True by done. simpl. by rewrite IH.
    + rewrite decide_False by tauto. exact IH.
  - rewrite decide_False by tauto. exact IH.
Qed.

(** What the [select] of the vote statement returns: nothing when the item
    is absent or has no vote in the table scanned, and otherwise one row
    whose counts are those of the table scanned. *)
Lemma vote_select_eq {A : Type} (items : gmap Z A) (votes : list vote_row)
    (nf : vote_row) (id : Z) :
  v_target nf = id →
  vote_select items votes [nf] id =
    match items !! id with
    | None => []
    | Some it =>
        if bool_decide (filter (fun v => v_target v = id) votes = []) then []
        else [ {| t_id := id; t_item := it;
                  upvote := votes_of 1 id votes;
                  downvote := votes_of (-1) id votes |} ]
    end.
Proof.
  intros Hnf. unfold vote_select. cbv zeta. rewrite vote_join_one by done.
  destruct (items !! id) as [it|]; [|done].
  rewrite <- !(count_vote_joined _ id it nf).
  destruct (filter _ votes) as [|v vs]; [done|].
  rewrite bool_decide_eq_false_2 by done. done.
Qed.

(** ** Vote routes *)

Ltac unfold_cast :=
  unfold cast, post_question_upvote, post_question_downvote,
    post_answer_upvote, post_answer_downvote, route, pool_query.

(** A request the middleware answers never reaches the pool. *)
Lemma cast_rejected (k : target_kind) (d : direction) (req : request) (e : env)
    (db : database) (r : response) :
  vote_gate k d req = Respond r → cast k d req e db = (r, db).
Proof. intros Hg. destruct k, d; simpl in Hg; unfold_cast; by rewrite Hg. Qed.

(** A failed round trip is a 500 and leaves the database as it was. *)
Lemma cast_unreachable (k : target_kind) (d : direction) (req : request) (e : env)
    (db : database) :
  vote_gate k d req = Next →
  up e = false ∨ int_in (params_id req) = None →
  cast k d req e db = (storage_error k, db).
Proof.
  intros Hg Hfail.
  destruct k, d; simpl in Hg; unfold_cast; rewrite Hg;
    (destruct (up e); [|done]);
    destruct Hfail as [?|Hid]; try done;
    unfold insert_question_vote, insert_answer_vote; by rewrite Hid.
Qed.

(** An accepted cast that reaches the pool appends its row, and is answered
    from the ledger as it was before the insert. *)
Lemma cast_accepted (k : target_kind) (d : direction) (req : request) (e : env)
    (db : database) (n : Z) :
  int_in (lit (literal d)) = Some (magnitude d) →
  vote_gate k d req = Next →
  up e = true →
  int_in (params_id req) = Some n →
  (cast k d req e db).2 = set_ledger k db (ledger k db ++ [cast_row d n e])
  ∧ let r := (cast k d req e db).1 in
    if item_exists k db n
       && negb (bool_decide (filter (fun v => v_target v = n) (ledger k db) = []))
    then status r = 200
         ∧ counts r = Some (votes_of 1 n (ledger k db), votes_of (-1) n (ledger k db))
    else r = not_found k.
Proof.
  intros Hlit Hg Hup Hid.
  pose proof (proj1 (vote_gate_next k d req) Hg) as Hv.
  assert (int_param (Some (JStr (lit (literal d)))) = Some (Some (magnitude d))) as Hp.
  { unfold int_param, text_param. by rewrite Hlit. }
  destruct k.
  - assert (cast Question d req e db =
      let results := returned (vote_select (questions db) (question_votes db)
                                 [cast_row d n e] n) in
      (if bool_decide (rowCount results = 0%nat) then json_message 404 "Question not found."
       else ok 200 (match d with
                    | Up => "Successfully upvoted the question."
                    | Down => "Successfully downvoted the question."
                    end) (first_row questionVote results),
       set_question_votes db (question_votes db ++ [cast_row d n e]))) as ->.
    { destruct d; simpl in Hg; unfold_cast; rewrite Hg, Hup;
        unfold insert_question_vote; rewrite Hid, Hv, Hp; simpl;
        by destruct (bool_decide _). }
    simpl. split; [done|].
    rewrite vote_select_eq by done.
    destruct (questions db !! n) as [q|]; simpl; [|done].
    destruct (bool_decide (filter _ _ = [])); simpl; [done|].
    done.
  - assert (cast Answer d req e db =
      let results := returned (vote_select (answers db) (answer_votes db)
                                 [cast_row d n e] n) in
      (if bool_decide (rowCount results = 0%nat) then json_message 404 "Answer not found."
       else ok 200 (match d with
                    | Up => "Successfully upvoted the answer."
                    | Down => "Successfully downvoted the answer."
                    end) (first_row answerVote results),
       set_answer_votes db (answer_votes db ++ [cast_row d n e]))) as ->.
    { destruct d; simpl in Hg; unfold_cast; rewrite Hg, Hup;
        unfold insert_answer_vote; rewrite Hid, Hv, Hp; simpl;
        by destruct (bool_decide _). }
    simpl. split; [done|].
    rewrite vote_select_eq by done.
    destruct (answers db !! n) as [a|]; simpl; [|done].
    destruct (bool_decide (filter _ _ = [])); simpl; [done|].
    done.
Qed.

(** The rows a vote route adds, to either ledger, have its direction. *)
Lemma cast_appends (k : target_kind) (d : direction) (req : request) (e : env)
    (db : database) (k' : target_kind) :
  int_in (lit (literal d)) = Some (magnitude d) →
  ∃ new, ledger k' (cast k d req e db).2 = ledger k' db ++ new
         ∧ Forall (fun v => v_vote v = Some (magnitude d)) new.
Proof.
  intros Hlit.
  assert (∃ new, ledger k' db = ledger k' db ++ new
                 ∧ Forall (fun v => v_vote v = Some (magnitude d)) new) as Hsame.
  { exists []. by rewrite app_nil_r. }
  destruct (vote_gate k d req) as [r|] eqn:Hg.
  { by rewrite (cast_rejected _ _ _ _ _ _ Hg). }
  destruct (up e) eqn:Hup; [|by rewrite cast_unreachable by auto].
  destruct (int_in (params_id req)) as [n|] eqn:Hid;
    [|by rewrite cast_unreachable by auto].
  destruct (cast_accepted k d req e db n Hlit Hg Hup Hid) as [-> _].
  destruct k, k'; simpl; try done.
  all: exists [cast_row d n e]; split; [done|]; by repeat constructor.
Qed.

(** The item tables and their sequences are not written by a vote route. *)
Lemma cast_frame (k : target_kind) (d : direction) (req : request) (e : env)
    (db : database) :
  questions (cast k d req e db).2 = questions db
  ∧ answers (cast k d req e db).2 = answers db
  ∧ questions_id_seq (cast k d req e db).2 = questions_id_seq db
  ∧ answers_id_seq (cast k d req e db).2 = answers_id_seq db.
Proof.
  destruct k, d; unfold_cast; unfold insert_question_vote, insert_answer_vote;
    repeat case_match; by simplify_eq.
Qed.

(** C3, endpoint-direction binding. On each of the four vote routes a
    request whose [vote] is not exactly the route's literal (["1"] on an
    upvote route, ["-1"] on a downvote route) is answered 400 and the
    database is left as it was. A request with the literal, once its round
    trip to the pool succeeds, appends exactly one row to the ledger of the
    route, with the route's own direction ([+1], respectively [-1]).
    Whatever the request, every row a route adds to either ledger has the
    route's direction. *)
Theorem endpoint_direction_binding (k : target_kind) (d : direction) (req : request)
    (e : env) (db : database) :
  int_in (lit (literal d)) = Some (magnitude d) →
  let r := (cast k d req e db).1 in
  let db' := (cast k d req e db).2 in
  (if strict_eq (prop (body req) "vote") (literal d)
   then match up e, int_in (params_id req) with
        | true, Some n => ledger k db' = ledger k db ++ [cast_row d n e]
        | _, _ => db' = db
        end
   else status r = 400 ∧ db' = db)
  ∧ ∀ k', ∃ new, ledger k' db' = ledger k' db ++ new
                 ∧ Forall (fun v => v_vote v = Some (magnitude d)) new.
Proof.
  intros Hlit r db'. subst r db'. split; [|intros k'; by apply cast_appends].
  destruct (vote_gate k d req) as [r|] eqn:Hg.
  - rewrite (cast_rejected _ _ _ _ _ _ Hg). simpl.
    assert (strict_eq (prop (body req) "vote") (literal d) = false) as ->.
    { destruct (strict_eq _ _) eqn:Hs; [|done].
      apply strict_eq_true in Hs. apply (proj2 (vote_gate_next k d req)) in Hs.
      congruence. }
    eauto using vote_gate_status.
  - pose proof (proj2 (strict_eq_true _ _) (proj1 (vote_gate_next k d req) Hg)) as ->.
    destruct (up e) eqn:Hup; [|by rewrite cast_unreachable by auto].
    destruct (int_in (params_id req)) as [n|] eqn:Hid;
      [|by rewrite cast_unreachable by auto].
    destruct (cast_accepted k d req e db n Hlit Hg Hup Hid) as [-> _].
    by destruct k.
Qed.

(** C4, the orphaned vote. A cast with the route's literal, whose round
    trip succeeds and whose id names no item, is answered 404, and the
    database it leaves has the vote appended to the ledger: the insert is
    neither conditioned on the item nor undone. *)
Theorem orphaned_vote_on_not_found (k : target_kind) (d : direction) (req : request)
    (e : env) (db : database) (n : Z) :
  int_in (lit (literal d)) = Some (magnitude d) →
  prop (body req) "vote" = Some (JStr (lit (literal d))) →
  up e = true →
  int_in (params_id req) = Some n →
  item_exists k db n = false →
  (cast k d req e db).1 = not_found k
  ∧ status (cast k d req e db).1 = 404
  ∧ ledger k (cast k d req e db).2 = ledger k db ++ [cast_row d n e].
Proof.
  intros Hlit Hv Hup Hid Hno.
  apply (proj2 (vote_gate_next k d req)) in Hv.
  destruct (cast_accepted k d req e db n Hlit Hv Hup Hid) as [Hdb Hr].
  rewrite Hno in Hr. simpl in Hr. rewrite Hr, Hdb.
  by destruct k.
Qed.

(** C2 as amended, the status of a cast by direction and target. A cast
    whose [vote] is missing or is not the route's literal is answered 400
    whether or not the target exists. A cast with the literal whose round
    trip fails is answered 500; one whose round trip succeeds is answered
    404 when no item has the given id. A 200 is only ever answered for an
    id that names an existing item, and it carries the two counts. *)
Theorem vote_status_by_direction_and_target (k : target_kind) (d : direction)
    (req : request) (e : env) (db : database) :
  int_in (lit (literal d)) = Some (magnitude d) →
  let r := (cast k d req e db).1 in
  (if strict_eq (prop (body req) "vote") (literal d)
   then match up e, int_in (params_id req) with
        | true, Some n => item_exists k db n = false → r = not_found k
        | _, _ => r = storage_error k
        end
   else status r = 400)
  ∧ (status r = 200 →
     ∃ n, int_in (params_id req) = Some n ∧ item_exists k db n = true
          ∧ is_Some (counts r)).
Proof.
  intros Hlit r. subst r.
  destruct (vote_gate k d req) as [r|] eqn:Hg.
  - rewrite (cast_rejected _ _ _ _ _ _ Hg). simpl.
    assert (strict_eq (prop (body req) "vote") (literal d) = false) as ->.
    { destruct (strict_eq _ _) eqn:Hs; [|done].
      apply strict_eq_true in Hs. apply (proj2 (vote_gate_next k d req)) in Hs.
      congruence. }
    pose proof (vote_gate_status _ _ _ _ Hg) as Hst.
    split; [done|]. rewrite Hst. discriminate.
  - pose proof (proj2 (strict_eq_true _ _) (proj1 (vote_gate_next k d req) Hg)) as ->.
    destruct (up e) eqn:Hup;
      [destruct (int_in (params_id req)) as [n|] eqn:Hid|].
    + destruct (cast_accepted k d req e db n Hlit Hg Hup Hid) as [_ Hr].
      cbv zeta in Hr. split.
      * intros Hno. by rewrite Hno in Hr.
      * intros H200. exists n. split; [done|].
        destruct (item_exists k db n); simpl in Hr.
        -- destruct (negb _).
           ++ destruct Hr as [_ ->]. eauto.
           ++ rewrite Hr in H200. by destruct k.
        -- rewrite Hr in H200. by destruct k.
    + rewrite cast_unreachable by auto. simpl. split; [done|]. by destruct k.
    + rewrite cast_unreachable by auto. simpl. split; [done|]. by destruct k.
Qed.

(** C9 as amended, the kind of a rejection. On each vote route a [vote]
    that is absent or falsy ([null], [false], a zero, NaN, the empty
    string) is answered with the 400 of a missing field; a truthy [vote]
    that is not the route's literal is answered with the 400 of an invalid
    direction ("Please enter only ..."); the literal passes. *)
Theorem rejection_kind (k : target_kind) (d : direction) (req : request) :
  let v := prop (body req) "vote" in
  (falsy v → vote_gate k d req = Respond missing_field)
  ∧ (¬ falsy v → v ≠ Some (JStr (lit (literal d))) →
     vote_gate k d req = Respond (invalid_direction d))
  ∧ (v = Some (JStr (lit (literal d))) → vote_gate k d req = Next).
Proof.
  intros v. subst v. rewrite vote_gate_eq. repeat split.
  - intros Hf%truthy_falsy. by rewrite Hf.
  - intros Hf Hv.
    assert (truthy (prop (body req) "vote") = true) as ->.
    { destruct (truthy _) eqn:Ht; [done|]. by apply truthy_falsy in Ht. }
    assert (strict_eq (prop (body req) "vote") (literal d) = false) as ->; [|done].
    destruct (strict_eq _ _) eqn:Hs; [|done]. by apply strict_eq_true in Hs.
  - intros Hv. rewrite Hv, literal_truthy.
    by rewrite (proj2 (strict_eq_true _ _) eq_refl).
Qed.

(** ** Content and query validation *)

(** C5, the boundary of an answer's content. [validateAnswer] answers 400
    when [content] is absent or the empty string, calls [next()] for a
    string of 1 to 300 code units (300 included), and answers 400 for a
    string of 301 code units or more. The length is JavaScript's
    [.length], the number of UTF-16 code units. *)
Theorem answer_content_boundary (req : request) :
  let c := prop (body req) "content" in
  let out := validateAnswer_mjs.validateAnswer gt300 req in
  (c = None ∨ c = Some (JStr []) → out = Respond missing_field)
  ∧ (∀ s, c = Some (JStr s) → length s = 300%nat → out = Next)
  ∧ (∀ s, c = Some (JStr s) → (1 ≤ length s ≤ 300)%nat → out = Next)
  ∧ (∀ s, c = Some (JStr s) → (301 ≤ length s)%nat →
       out = Respond (json_message 400 "Textlength is over 300.")).
Proof.
  intros c out. subst c out. unfold validateAnswer_mjs.validateAnswer.
  assert (∀ s, prop (body req) "content" = Some (JStr s) → (1 ≤ length s ≤ 300)%nat →
    (if negb (truthy (prop (body req) "content"))
     then Respond (json_message 400 "Missing or invalid request data.")
     else if validateAnswer_mjs.length_over_300 gt300 (prop (body req) "content")
          then Respond (json_message 400 "Textlength is over 300.")
          else Next) = Next) as Hin.
  { intros s -> Hlen. simpl.
    rewrite bool_decide_eq_false_2 by (intros ->; simpl in Hlen; lia). simpl.
    rewrite bool_decide_eq_false_2 by lia. done. }
  repeat split.
  - by intros [-> | ->].
  - intros s Hc Hlen. apply (Hin s Hc). lia.
  - exact Hin.
  - intros s -> Hlen. simpl.
    rewrite bool_decide_eq_false_2 by (intros ->; simpl in Hlen; lia). simpl.
    rewrite bool_decide_eq_true_2 by lia. done.
Qed.

Lemma validateQuery_loop_next (keys : list jsstring) :
  validateQuestion_mjs.validateQuery_loop keys = Next
  ↔ Forall (fun key => key = lit "title" ∨ key = lit "category") keys.
Proof.
  induction keys as [|key keys IH]; simpl.
  - split; [constructor|done].
  - rewrite Forall_cons, <- IH.
    destruct (decide (key = lit "title")) as [Ht|Ht];
      [|destruct (decide (key = lit "category")) as [Hc|Hc]].
    + rewrite (bool_decide_eq_true_2 _ Ht). simpl.
      split; [intros Hn; split; [by left|exact Hn]|by intros [_ Hn]].
    + rewrite (bool_decide_eq_false_2 _ Ht), (bool_decide_eq_true_2 _ Hc). simpl.
      split; [intros Hn; split; [by right|exact Hn]|by intros [_ Hn]].
    + rewrite (bool_decide_eq_false_2 _ Ht), (bool_decide_eq_false_2 _ Hc). simpl.
      split; [discriminate|]. intros [[?|?] _]; contradiction.
Qed.

Lemma validateQuery_loop_cases (keys : list jsstring) :
  validateQuestion_mjs.validateQuery_loop keys = Next
  ∨ validateQuestion_mjs.validateQuery_loop keys
    = Respond (json_message 400 "Please enter a correct query.").
Proof.
  induction keys as [|key keys IH]; simpl; [by left|].
  destruct (negb _ && negb _); [by right|exact IH].
Qed.

(** C6, the query allow-list. [validateQuery] calls [next()] exactly when
    every parameter name of the query is [title] or [category] (so also for
    the empty query), and answers 400 otherwise, whatever other parameters
    are present. *)
Theorem query_allow_list (req : request) :
  (validateQuestion_mjs.validateQuery req = Next
   ↔ ∀ key, key ∈ (query req).*1 → key = lit "title" ∨ key = lit "category")
  ∧ (validateQuestion_mjs.validateQuery req = Next
     ∨ validateQuestion_mjs.validateQuery req
       = Respond (json_message 400 "Please enter a correct query.")).
Proof.
  unfold validateQuestion_mjs.validateQuery. split.
  - rewrite validateQuery_loop_next. apply Forall_forall.
  - apply validateQuery_loop_cases.
Qed.

(** C10, an empty list of questions is a 404. When [validateQuery] lets the
    request through and the round trip succeeds, a filter that matches no
    question is answered 404 with "Question not found."; and a 200 carries
    the matching questions, of which there is at least one. *)
Theorem empty_question_list_is_404 (req : request) (e : env) (db : database) :
  let r := (get_questions req e db).1 in
  let found := listed (assoc (lit "title") (query req))
                      (assoc (lit "category") (query req)) db in
  (validateQuestion_mjs.validateQuery req = Next → up e = true → found = [] →
     r = json_message 404 "Question not found.")
  ∧ (status r = 200 → content r = data_questions found ∧ found ≠ []).
Proof.
  intros r found. subst r found. unfold get_questions, route, pool_query, select_questions.
  unfold validateQuestion_mjs.validateQuery.
  destruct (validateQuery_loop_cases (query req).*1) as [-> | ->]; simpl.
  - destruct (up e); simpl.
    + destruct (listed _ _ db) as [|row rest] eqn:Hl; simpl.
      * split; [done|discriminate].
      * split; [discriminate|done].
    + split; [discriminate|discriminate].
  - split; [discriminate|discriminate].
Qed.

(** ** Frame and invariant *)

Lemma serve_all_cons (ep : endpoint) (req : request) (e : env)
    (rest : list (endpoint * request * env)) (db : database) :
  (serve_all ((ep, req, e) :: rest) db).2 = (serve_all rest (serve ep req e db).2).2.
Proof.
  simpl. destruct (serve ep req e db) as [r db1]. simpl.
  by destruct (serve_all rest db1).
Qed.

(** C7, voting is non-destructive. After any run of casts on the four vote
    routes, whatever their number, directions, requests and outcomes, the
    tables [questions] and [answers] are what they were: every item has
    the same content fields, [created_at] and [updated_at]. *)
Theorem voting_is_non_destructive (casts : list (target_kind * direction * request * env))
    (db : database) :
  let db' := (serve_all (vote_calls casts) db).2 in
  questions db' = questions db ∧ answers db' = answers db.
Proof.
  revert db. induction casts as [|[[[k d] req] e] casts IH]; intros db; [done|].
  cbv zeta in *. unfold vote_calls in *. rewrite fmap_cons. cbn [fst snd].
  rewrite serve_all_cons.
  destruct (IH (serve (POST_vote k d) req e db).2) as [-> ->]. simpl.
  destruct (cast_frame k d req e db) as (-> & -> & _). done.
Qed.

(** The routes that are not vote routes do not write the vote tables. *)
Lemma serve_ledgers_other (ep : endpoint) (req : request) (e : env) (db : database) :
  (∀ k d, ep ≠ POST_vote k d) →
  question_votes (serve ep req e db).2 = question_votes db
  ∧ answer_votes (serve ep req e db).2 = answer_votes db.
Proof.
  intros Hep. destruct ep; try (by destruct (Hep k d)); simpl;
    unfold get_questions, get_question, get_question_answers, post_question,
      post_question_answer, put_question, delete_question, route, pool_query,
      select_questions, select_question, select_answers, insert_question,
      insert_answer, update_question, delete_question_stmt;
    repeat case_match; by simplify_eq.
Qed.

(** One step of the application: both ledgers grow at the end, and the new
    rows have direction [1] or [-1]. *)
Lemma serve_ledgers (ep : endpoint) (req : request) (e : env) (db : database) :
  int_in (lit "1") = Some 1 →
  int_in (lit "-1") = Some (-1) →
  ∀ k, ∃ new, ledger k (serve ep req e db).2 = ledger k db ++ new
              ∧ Forall (fun v => v_vote v = Some 1 ∨ v_vote v = Some (-1)) new.
Proof.
  intros Hup Hdown k.
  assert ((∃ k' d, ep = POST_vote k' d) ∨ (∀ k' d, ep ≠ POST_vote k' d))
    as [(k' & d & ->)|Hep] by (destruct ep; eauto).
  - simpl. destruct (cast_appends k' d req e db k) as (new & Hnew & Hdir).
    { by destruct d. }
    exists new. split; [done|].
    eapply Forall_impl; [exact Hdir|]. intros v ->. by destruct d; [left|right].
  - destruct (serve_ledgers_other ep req e db Hep) as [Hq Ha].
    exists []. rewrite app_nil_r. split; [|constructor]. by destruct k.
Qed.

(** C8, the ledger is append-only. Every operation of the application
    leaves each vote table with the rows it had, in place and unchanged,
    followed by the rows it added; every added row has direction [+1] or
    [-1]; so if every stored direction was [+1] or [-1] before the
    operation, it is so after. (The tables have no counter column: the
    counts of a response are computed by the vote statement.) *)
Theorem ledger_append_only (ep : endpoint) (req : request) (e : env) (db : database) :
  int_in (lit "1") = Some 1 →
  int_in (lit "-1") = Some (-1) →
  let db' := (serve ep req e db).2 in
  (∀ k, ∃ new, ledger k db' = ledger k db ++ new
               ∧ Forall (fun v => v_vote v = Some 1 ∨ v_vote v = Some (-1)) new)
  ∧ (directions_ok db → directions_ok db').
Proof.
  intros Hup Hdown db'. subst db'.
  split; [by apply serve_ledgers|].
  destruct (serve_ledgers ep req e db Hup Hdown Question) as (nq & Hq & Hnq).
  destruct (serve_ledgers ep req e db Hup Hdown Answer) as (na & Ha & Hna).
  simpl in Hq, Ha.
  unfold directions_ok. rewrite Hq, Ha. intros Hok v Hv.
  rewrite Forall_forall in Hnq, Hna.
  rewrite !elem_of_app in Hv. destruct Hv as [[Hv|Hv]|[Hv|Hv]]; auto.
  - apply Hok. rewrite elem_of_app. auto.
  - apply Hok. rewrite elem_of_app. auto.
Qed.

(** Along a run the ledgers only grow. *)
Lemma serve_all_ledgers (calls : list (endpoint * request * env)) (db : database) :
  int_in (lit "1") = Some 1 →
  int_in (lit "-1") = Some (-1) →
  ∀ k, ∃ new, ledger k (serve_all calls db).2 = ledger k db ++ new
              ∧ Forall (fun v => v_vote v = Some 1 ∨ v_vote v = Some (-1)) new.
Proof.
  intros Hup Hdown k. revert db.
  induction calls as [|[[ep req] e] calls IH]; intros db.
  - exists []. by rewrite app_nil_r.
  - rewrite serve_all_cons.
    destruct (IH (serve ep req e db).2) as (new2 & -> & H2).
    destruct (serve_ledgers ep req e db Hup Hdown k) as (new1 & -> & H1).
    exists (new1 ++ new2). rewrite app_assoc. split; [done|]. by apply Forall_app.
Qed.

(** ** The question and answer routes *)

Lemma truthy_text_param (v : option json) :
  truthy v = true → is_Some (text_param v).
Proof. destruct v as [[]|]; simpl; try discriminate; eauto. Qed.

Lemma validateQuestion_next (req : request) :
  validateQuestion_mjs.validateQuestion req = Next
  ↔ truthy (prop (body req) "title") = true
    ∧ truthy (prop (body req) "description") = true
    ∧ truthy (prop (body req) "category") = true.
Proof.
  unfold validateQuestion_mjs.validateQuestion.
  destruct (truthy (prop (body req) "title")); simpl;
    [|split; [discriminate|by intros [? _]]].
  destruct (truthy (prop (body req) "description")); simpl;
    [|split; [discriminate|by intros (_ & ? & _)]].
  destruct (truthy (prop (body req) "category")); simpl;
    [done|split; [discriminate|by intros (_ & _ & ?)]].
Qed.

Lemma validateQuestion_cases (req : request) :
  validateQuestion_mjs.validateQuestion req = Next
  ∨ validateQuestion_mjs.validateQuestion req = Respond missing_field.
Proof.
  unfold validateQuestion_mjs.validateQuestion.
  repeat (destruct (truthy _); simpl; [|by right]). by left.
Qed.

(** X1. A question body passes [validateQuestion] exactly when none of
    [title], [description], [category] is absent or falsy ([null],
    [false], a zero, NaN, the empty string); any other body is answered
    400 "Missing or invalid request data.". *)
Theorem validateQuestion_requires_three_fields (req : request) :
  (validateQuestion_mjs.validateQuestion req = Next
   ↔ ¬ falsy (prop (body req) "title")
     ∧ ¬ falsy (prop (body req) "description")
     ∧ ¬ falsy (prop (body req) "category"))
  ∧ (validateQuestion_mjs.validateQuestion req = Next
     ∨ validateQuestion_mjs.validateQuestion req
       = Respond (json_message 400 "Missing or invalid request data.")).
Proof.
  split; [|apply validateQuestion_cases].
  rewrite validateQuestion_next, <- !truthy_falsy.
  split; intros (Ht & Hd & Hc).
  - rewrite Ht, Hd, Hc. done.
  - by repeat split; apply not_false_iff_true.
Qed.

Lemma validateAnswer_cases (req : request) :
  validateAnswer_mjs.validateAnswer gt300 req = Next
  ∨ validateAnswer_mjs.validateAnswer gt300 req = Respond missing_field
  ∨ validateAnswer_mjs.validateAnswer gt300 req
    = Respond (json_message 400 "Textlength is over 300.").
Proof.
  unfold validateAnswer_mjs.validateAnswer.
  destruct (truthy _); simpl; [|by right; left].
  destruct (validateAnswer_mjs.length_over_300 _ _); [by right; right|by left].
Qed.

Ltac unfold_routes :=
  unfold get_questions, get_question, get_question_answers, post_question,
    post_question_answer, put_question, delete_question, route, pool_query,
    select_questions, select_question, select_answers, insert_question,
    insert_answer, update_question, delete_question_stmt.

Lemma serve_get (ep : endpoint) (req : request) (e : env) (db : database) :
  is_get ep = true → (serve ep req e db).2 = db.
Proof.
  destruct ep; try discriminate; intros _; simpl; unfold_routes;
    repeat case_match; by simplify_eq.
Qed.

(** X2. The routes registered with [get] never write: whatever the
    request and its outcome, the database is left as it was. *)
Theorem get_routes_do_not_write (ep : endpoint) (req : request) (e : env) (db : database) :
  is_get ep = true → (serve ep req e db).2 = db.
Proof. apply serve_get. Qed.

(** X3. A request answered 400 has not reached the pool: on every route,
    a response of status 400 leaves the database as it was. *)
Theorem status_400_leaves_database (ep : endpoint) (req : request) (e : env)
    (db : database) :
  status (serve ep req e db).1 = 400 → (serve ep req e db).2 = db.
Proof.
  destruct ep as [| | | | |k d| |]; simpl.
  6: { destruct (vote_gate k d req) as [r|] eqn:Hg.
       { by rewrite (cast_rejected _ _ _ _ _ _ Hg). }
       destruct k, d; simpl in Hg; unfold_cast; rewrite Hg;
         unfold insert_question_vote, insert_answer_vote;
         repeat case_match; simplify_eq; simpl; done. }
  all: unfold_routes; repeat case_match; simplify_eq; simpl; done.
Qed.

(** X4. No question ever has a NULL [title], [description] or [category]:
    if this holds of the store, it holds after every operation. (The
    insert and the update only run behind [validateQuestion], and a truthy
    value is never sent as NULL.) *)
Theorem question_fields_stay_present (ep : endpoint) (req : request) (e : env)
    (db : database) :
  fields_present db → fields_present (serve ep req e db).2.
Proof.
  intros Hdb.
  assert (∀ db', questions db' = questions db → fields_present db') as Hsame.
  { intros db' Hq id q. rewrite Hq. apply Hdb. }
  assert (validateQuestion_mjs.validateQuestion req = Next →
          ∀ c u, is_Some (q_title (question_of req c u))
                 ∧ is_Some (q_description (question_of req c u))
                 ∧ is_Some (q_category (question_of req c u))) as Hnew.
  { intros (Ht & Hd & Hc)%validateQuestion_next c u. simpl.
    auto using truthy_text_param. }
  destruct ep as [| | | | |k d| |]; simpl.
  - apply Hsame. by rewrite (serve_get GET_questions).
  - apply Hsame. by rewrite (serve_get GET_question).
  - apply Hsame. by rewrite (serve_get GET_question_answers).
  - unfold post_question, route.
    destruct (validateQuestion_mjs.validateQuestion req) eqn:Hv; [done|].
    unfold pool_query, insert_question. destruct (up e); [|done].
    destruct (questions db !! questions_id_seq db) eqn:Hfree; simpl; [by apply Hsame|].
    intros id q. simpl. rewrite lookup_insert. case_decide.
    + intros [= <-]. apply (Hnew eq_refl (date1 e) (date2 e)).
    + apply Hdb.
  - apply Hsame. unfold post_question_answer, route, pool_query, insert_answer.
    repeat case_match; by simplify_eq.
  - apply Hsame. apply cast_frame.
  - unfold put_question, route.
    destruct (validateQuestion_mjs.validateQuestion req) eqn:Hv; [done|].
    unfold pool_query, update_question. destruct (up e); [|done].
    destruct (int_in (params_id req)) as [n|]; [|done].
    destruct (questions db !! n) as [q0|] eqn:Hq0; simpl; [|done].
    intros id q. simpl. rewrite lookup_insert. case_decide.
    + intros [= <-]. apply (Hnew eq_refl (q_created_at q0) (date1 e)).
    + apply Hdb.
  - unfold delete_question, pool_query, delete_question_stmt.
    destruct (up e); [|done].
    destruct (int_in (params_id req)) as [n|]; [|done].
    destruct (questions db !! n) as [q0|] eqn:Hq0; simpl; [|done].
    assert (fields_present (set_questions db (delete n (questions db)))) as Hdel.
    { intros id q. simpl. rewrite lookup_delete. case_decide; [done|]. apply Hdb. }
    destruct answers_fk; [|exact Hdel].
    intros id q. simpl. apply Hdel.
Qed.

(** X5. [GET /questions/:id], once the round trip succeeds, answers 200
    with the stored row when a question has the given id and 404
    "Question not found." when none has. *)
Theorem get_question_found_iff_stored (req : request) (e : env) (db : database) (k : Z) :
  up e = true →
  int_in (params_id req) = Some k →
  (get_question req e db).1 =
    match questions db !! k with
    | Some q => ok 200 "Successfully retrieved the list of questions." (data_question (k, q))
    | None => json_message 404 "Question not found."
    end.
Proof.
  intros Hup Hid. unfold get_question, pool_query, select_question.
  rewrite Hup, Hid. by destruct (questions db !! k).
Qed.


(** X7. Creating a question disturbs nothing that was stored: whatever
    the outcome of [POST /questions] (also when the generated id is taken
    and the insert fails), every question of the store is still there
    with the same row, and the answers and both vote tables are unchanged. *)
Theorem post_question_keeps_the_store (req : request) (e : env) (db : database) :
  let db' := (post_question req e db).2 in
  (∀ id q, questions db !! id = Some q → questions db' !! id = Some q)
  ∧ answers db' = answers db
  ∧ question_votes db' = question_votes db
  ∧ answer_votes db' = answer_votes db.
Proof.
  unfold post_question, route.
  destruct (validateQuestion_mjs.validateQuestion req); [done|].
  unfold pool_query, insert_question. destruct (up e); [|done].
  destruct (questions db !! questions_id_seq db) eqn:Hfree; [done|].
  simpl. repeat split. intros id q Hq.
  rewrite lookup_insert_ne; [done|]. intros <-. congruence.
Qed.


(** X9. [DELETE /questions/:id], once the round trip succeeds: for an id
    that names no question the answer is 404 and the store is unchanged;
    for a stored question the answer is 200, the question is gone, every
    other question is unchanged, and so are both vote tables (the votes of
    the deleted question stay in the ledger). *)
Theorem delete_question_removes_one_row (req : request) (e : env) (db : database) (k : Z) :
  up e = true →
  int_in (params_id req) = Some k →
  let r := (delete_question req e db).1 in
  let db' := (delete_question req e db).2 in
  match questions db !! k with
  | None => r = json_message 404 "Question not found." ∧ db' = db
  | Some _ =>
      r = json_message 200 "Successfully deleted the question and answer."
      ∧ questions db' = delete k (questions db)
      ∧ question_votes db' = question_votes db
      ∧ answer_votes db' = answer_votes db
  end.
Proof.
  intros Hup Hid. unfold delete_question, pool_query, delete_question_stmt.
  rewrite Hup, Hid.
  destruct (questions db !! k) as [q|] eqn:Hq; simpl; [|done].
  by destruct answers_fk.
Qed.

(** X10. A deleted question cannot be read or deleted again: after a
    [DELETE /questions/:id] answered 200, a [GET] and a second [DELETE]
    for the same id are both answered 404 "Question not found.". *)
Theorem deleted_question_is_gone (req : request) (e : env) (db : database) (k : Z) :
  int_in (params_id req) = Some k →
  status (delete_question req e db).1 = 200 →
  ∀ req' e', up e' = true → int_in (params_id req') = Some k →
    (get_question req' e' (delete_question req e db).2).1
    = json_message 404 "Question not found."
    ∧ (delete_question req' e' (delete_question req e db).2).1
      = json_message 404 "Question not found.".
Proof.
  intros Hid H200 req' e' Hup' Hid'.
  assert (questions (delete_question req e db).2 !! k = None) as Hgone.
  { revert H200. unfold delete_question, pool_query, delete_question_stmt.
    destruct (up e); [|discriminate]. rewrite Hid.
    destruct (questions db !! k) as [q|] eqn:Hq; simpl; [|discriminate].
    intros _. destruct answers_fk; simpl; by rewrite lookup_delete_eq. }
  unfold get_question, delete_question at 2, pool_query, select_question,
    delete_question_stmt.
  rewrite Hup', Hid', Hgone. done.
Qed.

(** X11. [GET /questions/:id/answers] is never answered 404: once the
    round trip succeeds it is answered 200 with exactly the stored answers
    whose [question_id] is the given id, each once, so with an empty
    list when the question has no answer or does not exist. *)
Theorem get_question_answers_lists_its_answers (req : request) (e : env)
    (db : database) (k : Z) :
  up e = true →
  int_in (params_id req) = Some k →
  ∃ found,
    (get_question_answers req e db).1
    = ok 200 "Successfully retrieved the answers." (data_answers found)
    ∧ NoDup found
    ∧ (∀ id a, (id, a) ∈ found ↔ answers db !! id = Some a ∧ a_question_id a = k)
    ∧ ((∀ id a, answers db !! id = Some a → a_question_id a ≠ k) → found = []).
Proof.
  intros Hup Hid. unfold get_question_answers, pool_query, select_answers.
  rewrite Hup, Hid. simpl.
  exists (filter (fun r => a_question_id r.2 = k) (map_to_list (answers db))).
  split; [done|]. split; [apply NoDup_filter, NoDup_map_to_list|].
  assert (∀ id a, (id, a) ∈ filter (fun r => a_question_id r.2 = k)
                              (map_to_list (answers db))
                  ↔ answers db !! id = Some a ∧ a_question_id a = k) as Hin.
  { intros id a. rewrite list_elem_of_filter, elem_of_map_to_list. simpl. tauto. }
  split; [exact Hin|].
  intros Hnone. destruct (filter _ _) as [|[id a] rest] eqn:Hf; [done|].
  destruct (proj1 (Hin id a)) as [Ha Hk]; [left|]. by destruct (Hnone id a Ha).
Qed.


Lemma matches_or_blank_lets_through (p : option json) (col : option jsstring) :
  matches_or_blank col (text_param p) = true ↔ lets_through p col.
Proof.
  unfold matches_or_blank, lets_through.
  destruct (text_param p) as [s|]; [|by split; [left|]].
  rewrite orb_true_iff, bool_decide_eq_true. split.
  - intros [-> | Hc]; [by right; left|].
    destruct col as [c|]; [|discriminate]. apply bool_decide_eq_true in Hc as ->.
    right; right. eauto.
  - intros [?|[[= ->]|(s' & [= <-] & ->)]]; [done|by left|].
    right. by apply bool_decide_eq_true.
Qed.

(** X13. What [GET /questions] lists: a 200 carries, each once, exactly
    the stored questions that both filters let through, where a filter
    lets a question through when the parameter is absent or empty or when
    the column equals it. So [?title=] lists what no [title] parameter
    lists, and a question is never listed under another title. *)
Theorem get_questions_lists_the_matches (req : request) (e : env) (db : database) :
  status (get_questions req e db).1 = 200 →
  ∃ found,
    content (get_questions req e db).1 = data_questions found
    ∧ NoDup found
    ∧ ∀ id q, (id, q) ∈ found
        ↔ questions db !! id = Some q
          ∧ lets_through (assoc (lit "title") (query req)) (q_title q)
          ∧ lets_through (assoc (lit "category") (query req)) (q_category q).
Proof.
  unfold get_questions, route, pool_query, select_questions,
    validateQuestion_mjs.validateQuery.
  destruct (validateQuery_loop_cases (query req).*1) as [-> | ->]; [|discriminate].
  destruct (up e); [|discriminate]. simpl.
  destruct (listed _ _ db) as [|row rest] eqn:Hl; [discriminate|].
  intros _. simpl. exists (row :: rest). split; [done|]. rewrite <- Hl. clear Hl.
  unfold listed. split; [apply NoDup_filter, NoDup_map_to_list|].
  intros id q. rewrite list_elem_of_filter, elem_of_map_to_list. simpl.
  rewrite andb_True, !Is_true_true, !matches_or_blank_lets_through.
  split; [intros [[? ?] ?]|intros (? & ? & ?)]; done.
Qed.

(** X14. The counts of a vote response are those of the ledger before the
    cast. For a cast with the route's literal whose round trip succeeds,
    the answer is 200 exactly when the item exists and the ledger already
    holds a vote for it; the two counts are then the numbers of stored
    votes of direction [1] and [-1] for that item; any other answer is the
    404 of the route. *)
Theorem cast_counts_the_votes_stored_before (k : target_kind) (d : direction)
    (req : request) (e : env) (db : database) (n : Z) :
  int_in (lit (literal d)) = Some (magnitude d) →
  prop (body req) "vote" = Some (JStr (lit (literal d))) →
  up e = true →
  int_in (params_id req) = Some n →
  let r := (cast k d req e db).1 in
  (status r = 200 ↔ item_exists k db n = true ∧ ∃ v, v ∈ ledger k db ∧ v_target v = n)
  ∧ (status r = 200 →
     counts r = Some (votes_of 1 n (ledger k db), votes_of (-1) n (ledger k db)))
  ∧ (status r ≠ 200 → r = not_found k).
Proof.
  intros Hlit Hv Hup Hid. apply (proj2 (vote_gate_next k d req)) in Hv.
  assert (filter (fun v => v_target v = n) (ledger k db) ≠ []
          ↔ ∃ v, v ∈ ledger k db ∧ v_target v = n) as Hne.
  { split.
    - destruct (filter _ _) as [|v vs] eqn:Hf; [done|]. intros _. exists v.
      assert (v ∈ filter (fun v => v_target v = n) (ledger k db)) as Hv'
        by (rewrite Hf; left).
      apply list_elem_of_filter in Hv'. tauto.
    - intros (v & Hin & Ht) Hf.
      assert (v ∈ filter (fun v => v_target v = n) (ledger k db)) as Hv'
        by by apply list_elem_of_filter.
      rewrite Hf in Hv'. by apply elem_of_nil in Hv'. }
  destruct (cast_accepted k d req e db n Hlit Hv Hup Hid) as [_ Hr].
  cbv zeta in *.
  destruct (item_exists k db n); simpl in Hr.
  - case_bool_decide as Hf; simpl in Hr.
    + rewrite Hr. repeat split; try by destruct k.
      intros [_ Hex]. by apply Hne in Hex.
    + destruct Hr as [H200 Hc]. repeat split; try done.
      by apply Hne.
  - rewrite Hr. repeat split; try by destruct k.
    by intros [? _].
Qed.

(** A vote route writes only the table of its own kind. *)
Lemma cast_other_ledger (k : target_kind) (d : direction) (req : request) (e : env)
    (db : database) (k' : target_kind) :
  k' ≠ k → ledger k' (cast k d req e db).2 = ledger k' db.
Proof.
  intros Hk. destruct k, k', d; try done; unfold_cast;
    unfold insert_question_vote, insert_answer_vote;
    repeat case_match; by simplify_eq.
Qed.

(** X15. The two ledgers are separate: a cast on a question route leaves
    [answer_votes] as it was, and a cast on an answer route leaves
    [question_votes] as it was, whatever the request and its outcome. *)
Theorem cast_writes_its_own_ledger (k : target_kind) (d : direction) (req : request)
    (e : env) (db : database) (k' : target_kind) :
  k' ≠ k → ledger k' (cast k d req e db).2 = ledger k' db.
Proof. apply cast_other_ledger. Qed.

(** The rows a vote route adds are rows of the id of its path. *)
Lemma cast_appends_target (k : target_kind) (d : direction) (req : request) (e : env)
    (db : database) (m : Z) :
  int_in (params_id req) = Some m →
  ∃ new, ledger k (cast k d req e db).2 = ledger k db ++ new
         ∧ Forall (fun v => v_target v = m) new.
Proof.
  intros Hid.
  assert (∃ new, ledger k db = ledger k db ++ new
                 ∧ Forall (fun v => v_target v = m) new) as Hsame.
  { exists []. by rewrite app_nil_r. }
  destruct k, d; unfold_cast; unfold insert_question_vote, insert_answer_vote;
    rewrite Hid; repeat case_match; simplify_eq; simpl; try done.
  all: eexists [_]; split; [done|]; by repeat constructor.
Qed.

(** The response of a vote route is read off the item tables and the
    votes of the item of its path. *)
Lemma cast_response_reads (k : target_kind) (d : direction) (req : request) (e : env)
    (db1 db2 : database) (n : Z) :
  int_in (params_id req) = Some n →
  questions db1 = questions db2 →
  answers db1 = answers db2 →
  filter (fun v => v_target v = n) (ledger k db1)
  = filter (fun v => v_target v = n) (ledger k db2) →
  (cast k d req e db1).1 = (cast k d req e db2).1.
Proof.
  intros Hid Hq Ha Hf.
  destruct k, d; simpl in Hf; unfold_cast;
    (match goal with |- context [match ?g with Respond _ => _ | Next => _ end] =>
       destruct g end; [done|]);
    (destruct (up e); [|done]);
    unfold insert_question_vote, insert_answer_vote; rewrite Hid;
    (destruct (int_param _); [|done]);
    unfold vote_select, vote_join; rewrite ?Hq, ?Ha, Hf; simpl;
    by repeat case_match.
Qed.

(** X16. Votes on other items do not show: the response to a cast on the
    item [n] of one kind is the same after any cast on another item, or on
    an item of the other kind, as it would have been before it. *)
Theorem casts_on_other_items_do_not_show (k1 k2 : target_kind) (d1 d2 : direction)
    (req1 req2 : request) (e1 e2 : env) (db : database) (m n : Z) :
  int_in (params_id req1) = Some m →
  int_in (params_id req2) = Some n →
  k1 ≠ k2 ∨ m ≠ n →
  (cast k2 d2 req2 e2 (cast k1 d1 req1 e1 db).2).1 = (cast k2 d2 req2 e2 db).1.
Proof.
  intros Hm Hn Hother.
  destruct (cast_frame k1 d1 req1 e1 db) as (Hq & Ha & _).
  apply (cast_response_reads k2 d2 req2 e2 _ _ n Hn Hq Ha).
  assert (k2 = k1 ∨ k2 ≠ k1) as [->|Hk] by (destruct k1, k2; auto).
  - destruct Hother as [?|Hmn]; [done|].
    destruct (cast_appends_target k1 d1 req1 e1 db m Hm) as (new & -> & Hnew).
    rewrite filter_app. rewrite <- (app_nil_r (filter _ (ledger k1 db))) at 2.
    f_equal. induction Hnew as [|v new Hv _ IH]; [done|].
    rewrite filter_cons, decide_False by congruence. exact IH.
  - by rewrite cast_other_ledger.
Qed.

(** X17. [validateAnswer] does not ask for a string: [true], any number
    other than a zero and NaN, and any array of at most 300 elements pass
    as [content]; an array of more than 300 elements is answered 400
    "Textlength is over 300.". *)
Theorem validateAnswer_does_not_require_a_string (req : request) :
  let c := prop (body req) "content" in
  let out := validateAnswer_mjs.validateAnswer gt300 req in
  (c = Some (JBool true) → out = Next)
  ∧ (∀ x, c = Some (JNum x) → ¬ falsy c → out = Next)
  ∧ (∀ elems, c = Some (JArr elems) →
       out = if bool_decide (length elems ≤ 300)%nat then Next
             else Respond (json_message 400 "Textlength is over 300.")).
Proof.
  intros c out. subst c out. unfold validateAnswer_mjs.validateAnswer. repeat split.
  - by intros ->.
  - intros x Hc Hf. assert (truthy (prop (body req) "content") = true) as ->.
    { destruct (truthy _) eqn:Ht; [done|]. by apply truthy_falsy in Ht. }
    by rewrite Hc.
  - intros elems ->. simpl.
    destruct (decide (length elems ≤ 300)%nat) as [Hl|Hl].
    + rewrite (bool_decide_eq_true_2 _ Hl), bool_decide_eq_false_2 by lia. done.
    + rewrite (bool_decide_eq_false_2 _ Hl), bool_decide_eq_true_2 by lia. done.
Qed.

(** X18. Along any run of requests each vote table is the table the run
    started with, followed by the rows added, all of direction [1] or
    [-1]: no sequence of operations modifies or removes a stored vote. *)
Theorem ledgers_only_grow_along_runs (calls : list (endpoint * request * env))
    (db : database) (k : target_kind) :
  int_in (lit "1") = Some 1 →
  int_in (lit "-1") = Some (-1) →
  ∃ new, ledger k (serve_all calls db).2 = ledger k db ++ new
         ∧ Forall (fun v => v_vote v = Some 1 ∨ v_vote v = Some (-1)) new.
Proof.
  intros Hup Hdown. revert db.
  induction calls as [|[[ep req] e] calls IH]; intros db.
  - exists []. by rewrite app_nil_r.
  - rewrite serve_all_cons.
    destruct (IH (serve ep req e db).2) as (new2 & -> & H2).
    destruct (serve_ledgers ep req e db Hup Hdown k) as (new1 & -> & H1).
    exists (new1 ++ new2). rewrite app_assoc. split; [done|]. by apply Forall_app.
Qed.

(** X19. When the round trip to the pool fails, nothing is written and the
    request is answered 500, unless its middleware has already answered
    400: no route answers 200, 201 or 404 without the pool. *)
Theorem failed_round_trip_is_500 (ep : endpoint) (req : request) (e : env)
    (db : database) :
  up e = false →
  (serve ep req e db).2 = db
  ∧ (status (serve ep req e db).1 = 400 ∨ status (serve ep req e db).1 = 500).
Proof.
  intros Hup. destruct ep as [| | | | |k d| |]; simpl.
  - unfold_routes; unfold validateQuestion_mjs.validateQuery; rewrite Hup.
    destruct (validateQuery_loop_cases (query req).*1) as [-> | ->]; simpl; (split; [done|]); auto.
  - unfold_routes; rewrite Hup; simpl; (split; [done|]); auto.
  - unfold_routes; rewrite Hup; simpl; (split; [done|]); auto.
  - unfold_routes; rewrite Hup.
    destruct (validateQuestion_cases req) as [-> | ->]; simpl; (split; [done|]); auto.
  - unfold_routes; rewrite Hup.
    destruct (validateAnswer_cases req) as [-> | [-> | ->]]; simpl; (split; [done|]); auto.
  - destruct (vote_gate k d req) as [r|] eqn:Hg.
    + rewrite (cast_rejected _ _ _ _ _ _ Hg). simpl.
      split; [done|]. left. by apply (vote_gate_status k d req).
    + rewrite cast_unreachable by auto. split; [done|]. right. by destruct k.
  - unfold_routes; rewrite Hup.
    destruct (validateQuestion_cases req) as [-> | ->]; simpl; (split; [done|]); auto.
  - unfold_routes; rewrite Hup; simpl; (split; [done|]); auto.
Qed.

(** X20. No route checks the id of its path: on every route with an
    [:id], an id that the integer column does not accept makes the
    statement fail, the request is answered 500 (or 400 by its
    middleware), never 404, and nothing is written. *)
Theorem malformed_id_is_500 (ep : endpoint) (req : request) (e : env) (db : database) :
  has_id ep = true →
  int_in (params_id req) = None →
  (serve ep req e db).2 = db
  ∧ (status (serve ep req e db).1 = 400 ∨ status (serve ep req e db).1 = 500).
Proof.
  intros Hep Hid. destruct ep as [| | | | |k d| |]; try discriminate; simpl.
  - unfold_routes; rewrite Hid. destruct (up e); simpl; (split; [done|]); auto.
  - unfold_routes; rewrite Hid. destruct (up e); simpl; (split; [done|]); auto.
  - unfold_routes; rewrite Hid.
    destruct (up e), (validateAnswer_cases req) as [-> | [-> | ->]]; simpl;
      (split; [done|]); auto.
  - destruct (vote_gate k d req) as [r|] eqn:Hg.
    + rewrite (cast_rejected _ _ _ _ _ _ Hg). simpl.
      split; [done|]. left. by apply (vote_gate_status k d req).
    + rewrite cast_unreachable by auto. split; [done|]. right. by destruct k.
  - unfold_routes; rewrite Hid.
    destruct (up e), (validateQuestion_cases req) as [-> | ->]; simpl;
      (split; [done|]); auto.
  - unfold_routes; rewrite Hid. destruct (up e); simpl; (split; [done|]); auto.
Qed.
End Application.

(** ** The routes on concrete requests *)

Example int4_decimal_literals :
  int4_decimal (lit "1") = Some 1 ∧ int4_decimal (lit "-1") = Some (-1)
  ∧ int4_decimal (lit "5") = Some 5 ∧ int4_decimal (lit "999") = Some 999
  ∧ int4_decimal (lit "abc") = None.
Proof. by vm_compute. Qed.

(** C1, tally correctness, on the scenario of section 8: question 5 exists
    and has no vote. The upvote is answered 404 "Question not found." and
    its row is stored; the downvote that follows is answered 200 with
    [upvote = 1] and [downvote = 0], the counts of the ledger before its
    own row, and its row is stored. Section 4.2 asks for the counts with
    the inserted vote: [(1, 0)] for the first cast and [(1, 1)] for the
    second. *)
Theorem tally_misses_inserted_vote :
  let run1 := cast no_text int4_decimal Question Up
                (vote_request "5" (JStr (lit "1"))) (at_time 2000) store5 in
  let run2 := cast no_text int4_decimal Question Down
                (vote_request "5" (JStr (lit "-1"))) (at_time 3000) run1.2 in
  run1.1 = json_message 404 "Question not found."
  ∧ question_votes run1.2 = [cast_row Up 5 (at_time 2000)]
  ∧ status run2.1 = 200
  ∧ counts run2.1 = Some (1%nat, 0%nat)
  ∧ question_votes run2.2 = [cast_row Up 5 (at_time 2000); cast_row Down 5 (at_time 3000)]
  ∧ (let t := spec_castVote (questions store5) (question_votes store5)
                (cast_row Up 5 (at_time 2000)) in
     (fun t => (upvote t, downvote t)) <$> t = Some (1%nat, 0%nat))
  ∧ (let t := spec_castVote (questions run1.2) (question_votes run1.2)
                (cast_row Down 5 (at_time 3000)) in
     (fun t => (upvote t, downvote t)) <$> t = Some (1%nat, 1%nat)).
Proof. by vm_compute. Qed.

(** C2 as stated fails: on an upvote route, a [vote] that is not ["1"] for
    an id that names no item is answered 400, not 404. *)
Lemma invalid_direction_on_missing_target_is_400 :
  let r := (cast no_text int4_decimal Question Up
              (vote_request "999" (JStr (lit "-1"))) (at_time 2000) store5).1 in
  int4_decimal (lit "999") = Some 999
  ∧ item_exists Question store5 999 = false
  ∧ status r = 400
  ∧ ¬ (status r = 404 ↔ item_exists Question store5 999 = false).
Proof.
  vm_compute. repeat split; try done. intros [_ H]. by specialize (H eq_refl).
Qed.

(** C9 as stated fails: a [vote] that is present and falsy, the empty
    string or the number 0, is answered with the message of a missing
    field, not with "Please enter only 1.". *)
Lemma falsy_direction_is_reported_missing :
  let empty := vote_request "5" (JStr []) in
  let zero := vote_request "5" (JNum (S754_zero false)) in
  prop (body empty) "vote" = Some (JStr [])
  ∧ prop (body zero) "vote" = Some (JNum (S754_zero false))
  ∧ validateQuestion_mjs.validateQuestionUpVote empty
    = Respond (json_message 400 "Missing or invalid request data.")
  ∧ validateQuestion_mjs.validateQuestionUpVote zero
    = Respond (json_message 400 "Missing or invalid request data.")
  ∧ validateQuestion_mjs.validateQuestionUpVote empty
    ≠ Respond (json_message 400 "Please enter only 1.")
  ∧ validateAnswer_mjs.validateAnswerUpVote zero
    ≠ Respond (json_message 400 "Please enter only 1.").
Proof. vm_compute. repeat split; try done. Qed.

(** The upvote of question 5 appends its row, of direction [+1]. *)
Lemma endpoint_direction_binding_witness :
  int4_decimal (lit (literal Up)) = Some (magnitude Up)
  ∧ ledger Question
      (cast no_text int4_decimal Question Up
         (vote_request "5" (JStr (lit "1"))) (at_time 2000) store5).2
    = ledger Question store5 ++ [cast_row Up 5 (at_time 2000)].
Proof.
  split; [reflexivity|].
  exact (proj1 (endpoint_direction_binding no_text int4_decimal Question Up
                  (vote_request "5" (JStr (lit "1"))) (at_time 2000) store5 eq_refl)).
Defined.

(** An upvote for the id 999, which names no question, is answered 404. *)
Lemma vote_status_by_direction_and_target_witness :
  int4_decimal (lit (literal Up)) = Some (magnitude Up)
  ∧ (cast no_text int4_decimal Question Up
       (vote_request "999" (JStr (lit "1"))) (at_time 2000) store5).1
    = not_found Question.
Proof.
  split; [reflexivity|].
  exact (proj1 (vote_status_by_direction_and_target no_text int4_decimal Question Up
                  (vote_request "999" (JStr (lit "1"))) (at_time 2000) store5 eq_refl)
               eq_refl).
Defined.

(** A downvote for the id 999 is answered 404 and leaves its row behind. *)
Lemma orphaned_vote_on_not_found_witness :
  let req := vote_request "999" (JStr (lit "-1")) in
  let out := cast no_text int4_decimal Question Down req (at_time 2000) store5 in
  int4_decimal (lit (literal Down)) = Some (magnitude Down)
  ∧ prop (body req) "vote" = Some (JStr (lit (literal Down)))
  ∧ up (at_time 2000) = true
  ∧ int4_decimal (params_id req) = Some 999
  ∧ item_exists Question store5 999 = false
  ∧ out.1 = not_found Question
  ∧ status out.1 = 404
  ∧ ledger Question out.2 = ledger Question store5 ++ [cast_row Down 999 (at_time 2000)].
Proof.
  cbv zeta. do 5 (split; [reflexivity|]).
  exact (orphaned_vote_on_not_found no_text int4_decimal Question Down
           (vote_request "999" (JStr (lit "-1"))) (at_time 2000) store5 999
           eq_refl eq_refl eq_refl eq_refl eq_refl).
Defined.

(** The upvote of question 5, as one step of the application. *)
Lemma ledger_append_only_witness :
  let db' := (serve (fun _ => false) no_text int4_decimal false (POST_vote Question Up)
                (vote_request "5" (JStr (lit "1"))) (at_time 2000) store5).2 in
  int4_decimal (lit "1") = Some 1
  ∧ int4_decimal (lit "-1") = Some (-1)
  ∧ (∀ k, ∃ new, ledger k db' = ledger k store5 ++ new
                 ∧ Forall (fun v => v_vote v = Some 1 ∨ v_vote v = Some (-1)) new)
  ∧ (directions_ok store5 → directions_ok db').
Proof.
  cbv zeta. do 2 (split; [reflexivity|]).
  exact (ledger_append_only (fun _ => false) no_text int4_decimal false
           (POST_vote Question Up) (vote_request "5" (JStr (lit "1"))) (at_time 2000)
           store5 eq_refl eq_refl).
Defined.

(** The boundary of section 8: 300 code units pass, 301 do not. *)
Example answer_of_300_and_301 :
  let answer (n : nat) : request :=
    {| params_id := lit "5"; body := JObj [(lit "content", JStr (replicate n 97%N))];
       query := [] |} in
  validateAnswer_mjs.validateAnswer (fun _ => false) (answer 300%nat) = Next
  ∧ validateAnswer_mjs.validateAnswer (fun _ => false) (answer 301%nat)
    = Respond (json_message 400 "Textlength is over 300.").
Proof. by vm_compute. Qed.

(** The queries of section 8: [?title=x&category=y] passes, [?bogus=x] and
    [?title=x&bogus=y] do not. *)
Example queries_of_the_specification :
  let q (names : list string) : request :=
    {| params_id := []; body := JObj [];
       query := (fun k => (lit k, JStr (lit "x"))) <$> names |} in
  validateQuestion_mjs.validateQuery (q ["title"; "category"]) = Next
  ∧ validateQuestion_mjs.validateQuery (q []) = Next
  ∧ validateQuestion_mjs.validateQuery (q ["bogus"])
    = Respond (json_message 400 "Please enter a correct query.")
  ∧ validateQuestion_mjs.validateQuery (q ["title"; "bogus"])
    = Respond (json_message 400 "Please enter a correct query.").
Proof. by vm_compute. Qed.

(** An answer of 300 code units passes [validateAnswer]. *)
Lemma answer_content_boundary_witness :
  let req := {| params_id := lit "5";
                body := JObj [(lit "content", JStr (replicate 300 97%N))];
                query := [] |} in
  prop (body req) "content" = Some (JStr (replicate 300 97%N))
  ∧ length (replicate 300 97%N) = 300%nat
  ∧ validateAnswer_mjs.validateAnswer (fun _ => false) req = Next.
Proof.
  cbv zeta. do 2 (split; [reflexivity|]).
  exact (proj1 (proj2 (answer_content_boundary (fun _ => false)
                         {| params_id := lit "5";
                            body := JObj [(lit "content", JStr (replicate 300 97%N))];
                            query := [] |}))
               (replicate 300 97%N) eq_refl eq_refl).
Defined.

(** The string ["2"] on an upvote route is truthy and not the literal: it
    is answered as an invalid direction. *)
Lemma rejection_kind_witness :
  let req := vote_request "5" (JStr (lit "2")) in
  ¬ falsy (prop (body req) "vote")
  ∧ prop (body req) "vote" ≠ Some (JStr (lit (literal Up)))
  ∧ vote_gate Question Up req = Respond (invalid_direction Up).
Proof.
  cbv zeta.
  assert (¬ falsy (prop (body (vote_request "5" (JStr (lit "2")))) "vote")) as Hf.
  { intros H. inversion H. }
  assert (prop (body (vote_request "5" (JStr (lit "2")))) "vote"
          ≠ Some (JStr (lit (literal Up)))) as Hne.
  { intros H. discriminate H. }
  split; [exact Hf|]. split; [exact Hne|].
  exact (proj1 (proj2 (rejection_kind Question Up (vote_request "5" (JStr (lit "2")))))
               Hf Hne).
Defined.

(** Listing the questions titled "Nothing" of a store that has none is
    answered 404. *)
Lemma empty_question_list_is_404_witness :
  let req := {| params_id := []; body := JObj [];
                query := [(lit "title", JStr (lit "Nothing"))] |} in
  validateQuestion_mjs.validateQuery req = Next
  ∧ up (at_time 2000) = true
  ∧ listed no_text (assoc (lit "title") (query req))
           (assoc (lit "category") (query req)) store5 = []
  ∧ (get_questions no_text req (at_time 2000) store5).1
    = json_message 404 "Question not found.".
Proof.
  cbv zeta. do 3 (split; [reflexivity|]).
  exact (proj1 (empty_question_list_is_404 no_text
                  {| params_id := []; body := JObj [];
                     query := [(lit "title", JStr (lit "Nothing"))] |}
                  (at_time 2000) store5)
               eq_refl eq_refl eq_refl).
Defined.

(** ** The question and answer routes on concrete requests *)

(** Reading question 5 leaves the store as it was. *)
Lemma get_routes_do_not_write_witness :
  is_get GET_question = true
  ∧ (serve (fun _ => false) no_text int4_decimal false GET_question
       (vote_request "5" JNull) (at_time 2000) store5).2 = store5.
Proof.
  split; [reflexivity|].
  exact (get_routes_do_not_write (fun _ => false) no_text int4_decimal false GET_question
           (vote_request "5" JNull) (at_time 2000) store5 eq_refl).
Defined.

(** A question without a description is answered 400 and not stored. *)
Lemma status_400_leaves_database_witness :
  let req := question_request "" (JStr (lit "Title")) JNull (JStr (lit "Science")) in
  status (serve (fun _ => false) no_text int4_decimal false POST_question
            req (at_time 2000) store5).1 = 400
  ∧ (serve (fun _ => false) no_text int4_decimal false POST_question
       req (at_time 2000) store5).2 = store5.
Proof.
  cbv zeta. split; [reflexivity|].
  exact (status_400_leaves_database (fun _ => false) no_text int4_decimal false
           POST_question
           (question_request "" (JStr (lit "Title")) JNull (JStr (lit "Science")))
           (at_time 2000) store5 eq_refl).
Defined.

Lemma store5_fields_present : fields_present store5.
Proof.
  intros id q Hq. unfold store5 in Hq. simpl in Hq.
  apply lookup_singleton_Some in Hq as [_ <-]. simpl. eauto.
Defined.

(** Creating a question in the sample store keeps every field present. *)
Lemma question_fields_stay_present_witness :
  fields_present store5
  ∧ fields_present
      (serve (fun _ => false) no_text int4_decimal false POST_question
         (sample_question_request "") (at_time 2000) store5).2.
Proof.
  split; [exact store5_fields_present|].
  exact (question_fields_stay_present (fun _ => false) no_text int4_decimal false
           POST_question (sample_question_request "") (at_time 2000) store5
           store5_fields_present).
Defined.

(** [GET /questions/5] on the sample store answers 200 with question 5. *)
Lemma get_question_found_iff_stored_witness :
  let req := vote_request "5" JNull in
  up (at_time 2000) = true
  ∧ int4_decimal (params_id req) = Some 5
  ∧ (get_question int4_decimal req (at_time 2000) store5).1
    = ok 200 "Successfully retrieved the list of questions." (data_question (5, question5)).
Proof.
  cbv zeta. do 2 (split; [reflexivity|]).
  exact (get_question_found_iff_stored int4_decimal (vote_request "5" JNull)
           (at_time 2000) store5 5 eq_refl eq_refl).
Defined.



(** Deleting question 5 empties the table of questions. *)
Lemma delete_question_removes_one_row_witness :
  let req := vote_request "5" JNull in
  up (at_time 3000) = true
  ∧ int4_decimal (params_id req) = Some 5
  ∧ questions (delete_question int4_decimal false req (at_time 3000) store5).2
    = delete 5 (questions store5).
Proof.
  cbv zeta. do 2 (split; [reflexivity|]).
  exact (proj1 (proj2 (delete_question_removes_one_row int4_decimal false
                         (vote_request "5" JNull) (at_time 3000) store5 5
                         eq_refl eq_refl))).
Defined.

(** After question 5 is deleted, reading it is answered 404. *)
Lemma deleted_question_is_gone_witness :
  let req := vote_request "5" JNull in
  let db' := (delete_question int4_decimal false req (at_time 3000) store5).2 in
  int4_decimal (params_id req) = Some 5
  ∧ status (delete_question int4_decimal false req (at_time 3000) store5).1 = 200
  ∧ (get_question int4_decimal req (at_time 4000) db').1
    = json_message 404 "Question not found.".
Proof.
  cbv zeta. do 2 (split; [reflexivity|]).
  exact (proj1 (deleted_question_is_gone int4_decimal false (vote_request "5" JNull)
                  (at_time 3000) store5 5 eq_refl eq_refl
                  (vote_request "5" JNull) (at_time 4000) eq_refl eq_refl)).
Defined.

(** The answers of question 5 in the store that has one. *)
Lemma get_question_answers_lists_its_answers_witness :
  let req := vote_request "5" JNull in
  up (at_time 2000) = true
  ∧ int4_decimal (params_id req) = Some 5
  ∧ ∃ found,
      (get_question_answers int4_decimal req (at_time 2000) store5_answered).1
      = ok 200 "Successfully retrieved the answers." (data_answers found)
      ∧ NoDup found
      ∧ (∀ id a, (id, a) ∈ found
           ↔ answers store5_answered !! id = Some a ∧ a_question_id a = 5)
      ∧ ((∀ id a, answers store5_answered !! id = Some a → a_question_id a ≠ 5)
         → found = []).
Proof.
  cbv zeta. do 2 (split; [reflexivity|]).
  exact (get_question_answers_lists_its_answers int4_decimal (vote_request "5" JNull)
           (at_time 2000) store5_answered 5 eq_refl eq_refl).
Defined.

(** Listing the sample store without a filter is answered 200. *)
Lemma get_questions_lists_the_matches_witness :
  let req := vote_request "" JNull in
  status (get_questions no_text req (at_time 2000) store5).1 = 200
  ∧ ∃ found,
      content (get_questions no_text req (at_time 2000) store5).1 = data_questions found
      ∧ NoDup found
      ∧ ∀ id q, (id, q) ∈ found
          ↔ questions store5 !! id = Some q
            ∧ lets_through no_text (assoc (lit "title") (query req)) (q_title q)
            ∧ lets_through no_text (assoc (lit "category") (query req)) (q_category q).
Proof.
  cbv zeta. split; [reflexivity|].
  exact (get_questions_lists_the_matches no_text (vote_request "" JNull)
           (at_time 2000) store5 eq_refl).
Defined.

(** A downvote of question 5 after one upvote is answered with the counts
    of the ledger before it: one upvote, no downvote. *)
Lemma cast_counts_the_votes_stored_before_witness :
  let req := vote_request "5" (JStr (lit "-1")) in
  let r := (cast no_text int4_decimal Question Down req (at_time 3000) store5_voted).1 in
  int4_decimal (lit (literal Down)) = Some (magnitude Down)
  ∧ prop (body req) "vote" = Some (JStr (lit (literal Down)))
  ∧ up (at_time 3000) = true
  ∧ int4_decimal (params_id req) = Some 5
  ∧ status r = 200
  ∧ counts r = Some (votes_of 1 5 (ledger Question store5_voted),
                     votes_of (-1) 5 (ledger Question store5_voted)).
Proof.
  cbv zeta. do 5 (split; [reflexivity|]).
  exact (proj1 (proj2 (cast_counts_the_votes_stored_before no_text int4_decimal
                         Question Down (vote_request "5" (JStr (lit "-1")))
                         (at_time 3000) store5_voted 5
                         eq_refl eq_refl eq_refl eq_refl))
               eq_refl).
Defined.

(** An upvote of question 5 leaves [answer_votes] as it was. *)
Lemma cast_writes_its_own_ledger_witness :
  Answer ≠ Question
  ∧ ledger Answer
      (cast no_text int4_decimal Question Up
         (vote_request "5" (JStr (lit "1"))) (at_time 2000) store5).2
    = ledger Answer store5.
Proof.
  assert (Answer ≠ Question) as Hk by (intros H; discriminate H).
  split; [exact Hk|].
  exact (cast_writes_its_own_ledger no_text int4_decimal Question Up
           (vote_request "5" (JStr (lit "1"))) (at_time 2000) store5 Answer Hk).
Defined.

(** A vote for the id 7 does not change the response to a vote for 5. *)
Lemma casts_on_other_items_do_not_show_witness :
  let req1 := vote_request "7" (JStr (lit "1")) in
  let req2 := vote_request "5" (JStr (lit "-1")) in
  int4_decimal (params_id req1) = Some 7
  ∧ int4_decimal (params_id req2) = Some 5
  ∧ (Question ≠ Question ∨ 7 ≠ 5)
  ∧ (cast no_text int4_decimal Question Down req2 (at_time 3000)
       (cast no_text int4_decimal Question Up req1 (at_time 2500) store5_voted).2).1
    = (cast no_text int4_decimal Question Down req2 (at_time 3000) store5_voted).1.
Proof.
  cbv zeta.
  assert (Question ≠ Question ∨ 7 ≠ 5) as Hother by (right; intros H; discriminate H).
  do 2 (split; [reflexivity|]). split; [exact Hother|].
  exact (casts_on_other_items_do_not_show no_text int4_decimal Question Question Up Down
           (vote_request "7" (JStr (lit "1"))) (vote_request "5" (JStr (lit "-1")))
           (at_time 2500) (at_time 3000) store5_voted 7 5 eq_refl eq_refl Hother).
Defined.

(** A run of an upvote, a deletion and a downvote on the sample store. *)
Lemma ledgers_only_grow_along_runs_witness :
  let calls := [ (POST_vote Question Up, vote_request "5" (JStr (lit "1")), at_time 2000);
                 (DELETE_question, vote_request "5" JNull, at_time 2500);
                 (POST_vote Question Down, vote_request "5" (JStr (lit "-1")), at_time 3000) ] in
  int4_decimal (lit "1") = Some 1
  ∧ int4_decimal (lit "-1") = Some (-1)
  ∧ ∃ new,
      ledger Question
        (serve_all (fun _ => false) no_text int4_decimal false calls store5_voted).2
      = ledger Question store5_voted ++ new
      ∧ Forall (fun v => v_vote v = Some 1 ∨ v_vote v = Some (-1)) new.
Proof.
  cbv zeta. do 2 (split; [reflexivity|]).
  exact (ledgers_only_grow_along_runs (fun _ => false) no_text int4_decimal false
           [ (POST_vote Question Up, vote_request "5" (JStr (lit "1")), at_time 2000);
             (DELETE_question, vote_request "5" JNull, at_time 2500);
             (POST_vote Question Down, vote_request "5" (JStr (lit "-1")), at_time 3000) ]
           store5_voted Question eq_refl eq_refl).
Defined.

(** Creating a question while the pool is unreachable. *)
Lemma failed_round_trip_is_500_witness :
  let out := serve (fun _ => false) no_text int4_decimal false POST_question
               (sample_question_request "") offline store5 in
  up offline = false
  ∧ out.2 = store5
  ∧ (status out.1 = 400 ∨ status out.1 = 500).
Proof.
  cbv zeta. split; [reflexivity|].
  exact (failed_round_trip_is_500 (fun _ => false) no_text int4_decimal false
           POST_question (sample_question_request "") offline store5 eq_refl).
Defined.

(** Deleting the question "abc". *)
Lemma malformed_id_is_500_witness :
  let out := serve (fun _ => false) no_text int4_decimal false DELETE_question
               (vote_request "abc" JNull) (at_time 2000) store5 in
  has_id DELETE_question = true
  ∧ int4_decimal (params_id (vote_request "abc" JNull)) = None
  ∧ out.2 = store5
  ∧ (status out.1 = 400 ∨ status out.1 = 500).
Proof.
  cbv zeta. do 2 (split; [reflexivity|]).
  exact (malformed_id_is_500 (fun _ => false) no_text int4_decimal false
           DELETE_question (vote_request "abc" JNull) (at_time 2000) store5
           eq_refl eq_refl).
Defined.
